(** * Slidev feedback: the session coordinator (Durable Object)

    A shallow embedding of [SlidevFeedbackDO]
    (src/durable-objects/SlidevFeedbackDO.ts) and of the HTTP handler
    [closeSession] (src/handlers/realtime.ts), with theorems about the
    reaction tally, the slide cursor, the participant set and the
    broadcaster.

    Conventions of the embedding:
    - a [WebSocket] is an opaque handle (object identity in the source);
    - [this.sessions] is a JavaScript [Map], which iterates in insertion
      order: an association list with distinct keys;
    - [this.reactions] is a [Map<string, number>] read only by key: a
      [gmap string Z]; [this.participants] is a [Set<string>]: a
      [gset string];
    - inbound frames follow [WSMessage] (src/types.ts): [slide] is a
      number, [emoji], [text] and [role] are strings, [sessionToken] is a
      string or absent; slide numbers and counts are integers ([Z]), so
      the rounding of doubles beyond 2^53 and the exponent notation of
      numbers beyond 10^21 are not modelled;
    - a handler is a computation in a small state/exception/output monad:
      it reads and writes the object's fields, may throw, and logs every
      frame that [ws.send] hands to a socket;
    - whether [ws.send] throws is decided by the environment
      ([sendOk : WebSocket -> bool]), fixed while one event is handled;
    - [await this.state.storage.put(..)] is modelled as a write to the
      [storage] field that always completes; the Durable Object handles
      one event at a time;
    - the read endpoints ([getReactions], [getAnalytics]) and the router
      ([fetch]) are computations of the same monad; since the finite map
      of the tally forgets the insertion order of the JavaScript [Map],
      [getReactions] takes the entries in iteration order as an
      argument. *)

From Stdlib Require Import ZArith String Ascii List DecimalString DecimalZ
  DecimalPos Hexadecimal.
From stdpp Require Import base gmap strings list sets.

Local Open Scope Z_scope.
Local Open Scope string_scope.

(** ** JavaScript [Map] with insertion order *)

Module JSMap.
Section jsmap.
Context {K V : Type} `{EqDecision K}.

Fixpoint get (k : K) (m : list (K * V)) : option V :=
  match m with
  | [] => None
  | (k', v) :: r => if decide (k = k') then Some v else get k r
  end.

(** [set] keeps the position of an existing key and appends a new one. *)
Fixpoint set (k : K) (v : V) (m : list (K * V)) : list (K * V) :=
  match m with
  | [] => [(k, v)]
  | (k', v') :: r =>
      if decide (k = k') then (k, v) :: r else (k', v') :: set k v r
  end.

Definition delete (k : K) (m : list (K * V)) : list (K * V) :=
  filter (λ e, e.1 ≠ k) m.

Definition keys (m : list (K * V)) : list K := m.*1.

(** Representation invariant: a key occurs once. *)
Definition wf (m : list (K * V)) : Prop := NoDup (keys m).
End jsmap.
End JSMap.

(** ** Template strings over numbers *)

(** [`${n}`] for an integer [n]: decimal digits with a leading minus
    sign. This is the text that the code produces for every integer of
    magnitude below 2^53; beyond, the code prints the shortest digits of
    the nearest double, and from 10^21 on exponent notation. *)
Definition Number_toString (n : Z) : string :=
  NilEmpty.string_of_int (Z.to_int n).

(** [x || 0] on a number that may be [undefined]. *)
Definition or_zero (o : option Z) : Z :=
  match o with
  | Some n => if Z.eqb n 0 then 0 else n
  | None => 0
  end.

(** Truthiness of a string that may be [undefined]. *)
Definition truthy (o : option string) : bool :=
  match o with
  | Some s => negb (String.eqb s EmptyString)
  | None => false
  end.

(** ** Data *)

Definition WebSocket := nat.

Record Session := mkSession { role : string; sessionToken : string }.

(** [sessionData] is an untyped object; its fields are kept as text. *)
Abbreviation SessionData := (gmap string string).

(** Bodies that reach [/notify] (see realtime.ts and execute.ts).
    [NFeedback] is the body that [submitFeedback] relays for a submitter
    without [userId] (an undefined field is left out of the JSON text). *)
Inductive NotifyData :=
| NClose
| NUpdate (data : SessionData)
| NFeedback (type : string) (slideNumber : Z) (value : string)
            (token : string).

(** Inbound frames, after [JSON.parse]. *)
Inductive Message :=
| MJoin (mrole : string) (msessionToken : option string)
| MReaction (emoji : string) (slide : Z)
| MQuestion (text : string) (slide : Z) (msessionToken : option string)
| MSlideChange (slide : Z)
| MUpdate (data : SessionData)
| MPing
| MOther (type : string).

(** Outbound frames, before [JSON.stringify]. *)
Inductive OutMsg :=
| OInit (currentSlide : Z) (reactions : gmap string Z) (participants : nat)
| OReaction (emoji : string) (slide : Z) (count : Z)
| OQuestion (text : string) (slide : Z) (osessionToken : option string)
| OSlideChange (slide : Z)
| OUpdate (data : SessionData)
| OParticipants (count : nat)
| OPong
| ONotify (data : NotifyData).

Record Storage := mkStorage {
  stored_currentSlide : option Z;
  stored_reactions : option (gmap string Z);
  stored_sessionData : option SessionData
}.

Record DO := mkDO {
  sessions : list (WebSocket * Session);
  reactions : gmap string Z;
  currentSlide : Z;
  sessionData : SessionData;
  participants : gset string;
  storage : Storage
}.

Definition with_sessions (f : list (WebSocket * Session) → list (WebSocket * Session))
    (d : DO) : DO :=
  mkDO (f (sessions d)) (reactions d) (currentSlide d) (sessionData d)
       (participants d) (storage d).
Definition with_reactions (r : gmap string Z) (d : DO) : DO :=
  mkDO (sessions d) r (currentSlide d) (sessionData d) (participants d)
       (storage d).
Definition with_currentSlide (n : Z) (d : DO) : DO :=
  mkDO (sessions d) (reactions d) n (sessionData d) (participants d)
       (storage d).
Definition with_sessionData (s : SessionData) (d : DO) : DO :=
  mkDO (sessions d) (reactions d) (currentSlide d) s (participants d)
       (storage d).
Definition with_participants (p : gset string) (d : DO) : DO :=
  mkDO (sessions d) (reactions d) (currentSlide d) (sessionData d) p
       (storage d).
Definition with_storage (f : Storage → Storage) (d : DO) : DO :=
  mkDO (sessions d) (reactions d) (currentSlide d) (sessionData d)
       (participants d) (f (storage d)).

(** The constructor: empty registry and participant set; cursor, tally
    and session data restored from storage when present. *)
Definition construct (stored : Storage) : DO :=
  {| sessions := [];
     reactions := default ∅ (stored_reactions stored);
     currentSlide :=
       (match stored_currentSlide stored with
        | Some n => if Z.eqb n 0 then 1 else n
        | None => 1
        end);
     sessionData := default ∅ (stored_sessionData stored);
     participants := ∅;
     storage := stored |}.

Definition emptyStorage : Storage := mkStorage None None None.

(** ** The handler monad *)

Inductive Exn :=
| SocketClosed (ws : WebSocket)
| SyntaxError
| DbError (msg : string).

Inductive Completion (A : Type) :=
| Normal (a : A)
| Throw (e : Exn).
Arguments Normal {A} a.
Arguments Throw {A} e.

Record Run (A : Type) := mkRun {
  completion : Completion A;
  final : DO;
  sent : list (WebSocket * OutMsg)
}.
Arguments mkRun {A} _ _ _.
Arguments completion {A} _.
Arguments final {A} _.
Arguments sent {A} _.

Definition M (A : Type) : Type := DO → Run A.

Definition ret {A} (a : A) : M A := λ st, mkRun (Normal a) st [].

Definition bind {A B} (m : M A) (k : A → M B) : M B :=
  λ st,
    let r := m st in
    match completion r with
    | Normal a =>
        let r' := k a (final r) in
        mkRun (completion r') (final r') (sent r ++ sent r')
    | Throw e => mkRun (Throw e) (final r) (sent r)
    end.

(** [try { m } catch (error) { h }] *)
Definition try_catch {A} (m : M A) (h : M A) : M A :=
  λ st,
    let r := m st in
    match completion r with
    | Normal a => r
    | Throw _ =>
        let r' := h (final r) in
        mkRun (completion r') (final r') (sent r ++ sent r')
    end.

Definition read {A} (f : DO → A) : M A := λ st, mkRun (Normal (f st)) st [].
Definition update (f : DO → DO) : M unit := λ st, mkRun (Normal tt) (f st) [].
Definition throw {A} (e : Exn) : M A := λ st, mkRun (Throw e) st [].
Definition emit (ws : WebSocket) (m : OutMsg) : M unit :=
  λ st, mkRun (Normal tt) st [(ws, m)].

Declare Scope do_scope.
Delimit Scope do_scope with do.
Notation "x <- m ;; k" := (bind m (λ x, k))
  (at level 100, m at next level, right associativity) : do_scope.
Notation "m ;; k" := (bind m (λ _, k))
  (at level 100, right associativity) : do_scope.
Local Open Scope do_scope.

(** [m.forEach(f)] over the entries present when the loop starts; the
    callbacks below delete at most the entry being visited, which does
    not disturb the iteration. *)
Fixpoint forEach {A} (l : list A) (f : A → M unit) : M unit :=
  match l with
  | [] => ret tt
  | x :: r => f x ;; forEach r f
  end.

(** ** The Durable Object *)

Section DurableObject.
(** The transport: [sendOk ws] tells whether [ws.send] returns. *)
Variable sendOk : WebSocket → bool.

Definition ws_send (ws : WebSocket) (data : OutMsg) : M unit :=
  if sendOk ws then emit ws data else throw (SocketClosed ws).

Definition broadcast (message : OutMsg) : M unit :=
  s <- read sessions ;;
  forEach s (λ e,
    try_catch (ws_send e.1 message)
              (* Remove failed connections *)
              (update (with_sessions (JSMap.delete e.1)))).

Definition broadcastToPresenters (message : OutMsg) : M unit :=
  s <- read sessions ;;
  forEach s (λ e,
    if String.eqb (role e.2) "presenter" then
      try_catch (ws_send e.1 message)
                (update (with_sessions (JSMap.delete e.1)))
    else ret tt).

Definition broadcastParticipantCount : M unit :=
  p <- read participants ;;
  broadcast (OParticipants (size p)).

Definition reactionKey (slide : Z) (emoji : string) : string :=
  Number_toString slide ++ "-" ++ emoji.

Definition handleReaction (emoji : string) (slide : Z) : M unit :=
  let key := reactionKey slide emoji in
  r <- read reactions ;;
  let current := or_zero (r !! key) in
  update (with_reactions (<[key := current + 1]> r)) ;;
  (* Persist to storage *)
  r' <- read reactions ;;
  update (with_storage (λ s,
    mkStorage (stored_currentSlide s) (Some r') (stored_sessionData s))) ;;
  (* Broadcast to all clients *)
  broadcast (OReaction emoji slide (current + 1)).

Definition handleQuestion (text : string) (slide : Z)
    (tok : option string) : M unit :=
  (* Broadcast new question to presenters only *)
  broadcastToPresenters (OQuestion text slide tok).

Definition handleSlideChange (slide : Z) : M unit :=
  update (with_currentSlide slide) ;;
  c <- read currentSlide ;;
  update (with_storage (λ s,
    mkStorage (Some c) (stored_reactions s) (stored_sessionData s))) ;;
  c' <- read currentSlide ;;
  broadcast (OSlideChange c').

Definition handleUpdate (data : SessionData) : M unit :=
  sd <- read sessionData ;;
  update (with_sessionData (data ∪ sd)) ;;
  sd' <- read sessionData ;;
  update (with_storage (λ s,
    mkStorage (stored_currentSlide s) (stored_reactions s) (Some sd'))) ;;
  broadcast (OUpdate data).

(** [now] is the value of [Date.now()] when the frame is handled. *)
Definition handleWebSocketMessage (now : Z) (ws : WebSocket)
    (message : Message) : M unit :=
  match message with
  | MJoin r tok =>
      update (with_sessions (JSMap.set ws
        (mkSession r (if truthy tok then default EmptyString tok
                      else "anon-" ++ Number_toString now)))) ;;
      (if truthy tok then
         p <- read participants ;;
         update (with_participants ({[default EmptyString tok]} ∪ p))
       else ret tt) ;;
      (* Send initial state *)
      c <- read currentSlide ;;
      rs <- read reactions ;;
      p <- read participants ;;
      ws_send ws (OInit c rs (size p)) ;;
      broadcastParticipantCount
  | MReaction emoji slide => handleReaction emoji slide
  | MQuestion text slide tok => handleQuestion text slide tok
  | MSlideChange slide => handleSlideChange slide
  | MUpdate data => handleUpdate data
  | MPing => ws_send ws OPong
  | MOther _ => ret tt
  end.

(** The [message] listener: errors of the handler are logged, not
    rethrown. *)
Definition onMessage (now : Z) (ws : WebSocket) (message : Message) : M unit :=
  try_catch (handleWebSocketMessage now ws message) (ret tt).

(** The [close] listener. *)
Definition onClose (server : WebSocket) : M unit :=
  s <- read sessions ;;
  (match JSMap.get server s with
   | Some session =>
       if negb (String.eqb (sessionToken session) EmptyString) then
         p <- read participants ;;
         update (with_participants (p ∖ {[sessionToken session]}))
       else ret tt
   | None => ret tt
   end) ;;
  update (with_sessions (JSMap.delete server)) ;;
  broadcastParticipantCount.

(** [/notify]: [None] is a body that [request.json()] rejects. The
    result is the HTTP status. *)
Definition handleNotify (body : option NotifyData) : M Z :=
  try_catch
    (match body with
     | Some data => broadcast (ONotify data) ;; ret 200
     | None => throw SyntaxError
     end)
    (ret 400).

(** [/init] *)
Definition handleInit (body : option SessionData) : M Z :=
  try_catch
    (match body with
     | Some data =>
         update (with_sessionData data) ;;
         sd <- read sessionData ;;
         update (with_storage (λ s,
           mkStorage (stored_currentSlide s) (stored_reactions s) (Some sd))) ;;
         ret 200
     | None => throw SyntaxError
     end)
    (ret 400).
End DurableObject.

(** ** Events and traces *)

(** What the object can be asked to do: a frame on a socket, a socket
    closing, and the two HTTP endpoints that write. *)
Inductive Event :=
| EMessage (now : Z) (ws : WebSocket) (message : Message)
| EClose (ws : WebSocket)
| ENotify (body : option NotifyData)
| EInit (body : option SessionData).

Definition handle (sendOk : WebSocket → bool) (ev : Event) : M unit :=
  match ev with
  | EMessage now ws message => onMessage sendOk now ws message
  | EClose ws => onClose sendOk ws
  | ENotify body => handleNotify sendOk body ;; ret tt
  | EInit body => handleInit body ;; ret tt
  end.

(** Events are handled one at a time, each under the transport state of
    its moment. *)
Fixpoint run_events (evs : list ((WebSocket → bool) * Event)) (st : DO) : DO :=
  match evs with
  | [] => st
  | (ok, ev) :: r => run_events r (final (handle ok ev st))
  end.

Inductive reachable : DO → Prop :=
| reach_construct stored : reachable (construct stored)
| reach_step ok ev st : reachable st → reachable (final (handle ok ev st)).

(** Tally entry of a pair, as [handleReaction] reads it. *)
Definition count_of (r : gmap string Z) (slide : Z) (emoji : string) : Z :=
  or_zero (r !! reactionKey slide emoji).

Definition is_reaction_for (slide : Z) (emoji : string) (ev : Event) : bool :=
  match ev with
  | EMessage _ _ (MReaction e s) => Z.eqb s slide && String.eqb e emoji
  | _ => false
  end.

(** Number of reaction calls for one pair in a trace. *)
Definition reaction_calls (slide : Z) (emoji : string)
    (evs : list ((WebSocket → bool) * Event)) : nat :=
  length (filter (λ e, is_reaction_for slide emoji e.2 = true) evs).

(** Connections whose [send] returns, in registry order. *)
Definition live (sendOk : WebSocket → bool) (s : list (WebSocket * Session))
    : list (WebSocket * Session) :=
  filter (λ e, sendOk e.1 = true) s.

Definition to_all (s : list (WebSocket * Session)) (m : OutMsg)
    : list (WebSocket * OutMsg) :=
  (λ e, (e.1, m)) <$> s.

(** ** The session directory and [closeSession] *)

Record SessionRow := mkRow {
  is_active : bool;
  closed_at : option Z
}.

Record System := mkSystem {
  slidev_sessions : gmap string SessionRow;
  dobj : DO
}.

Record HttpRun (A : Type) := mkHttp {
  http_completion : Completion A;
  http_final : System;
  http_sent : list (WebSocket * OutMsg)
}.
Arguments mkHttp {A} _ _ _.
Arguments http_completion {A} _.
Arguments http_final {A} _.
Arguments http_sent {A} _.

(** [notifyDurableObject]: a POST to [/notify]; a failed fetch is logged
    and swallowed. The Worker that routes the request to the object is
    not part of the sources: [fetchOk] tells whether the request reaches
    the object's [/notify] endpoint. *)
Definition notifyDurableObject (sendOk : WebSocket → bool) (fetchOk : bool)
    (data : NotifyData) (sys : System) : System * list (WebSocket * OutMsg) :=
  if fetchOk then
    let r := handleNotify sendOk (Some data) (dobj sys) in
    (mkSystem (slidev_sessions sys) (final r), sent r)
  else (sys, []).

(** [closeSession]: [dbError] is the error, if any, that the update of
    [slidev_sessions] reports; the update touches the row whose id is
    [sessionId]. *)
Definition closeSession (sendOk : WebSocket → bool) (dbError : option string)
    (fetchOk : bool) (now : Z) (sessionId : string)
    (durableObjectId : option string) (sys : System) : HttpRun bool :=
  match dbError with
  | Some msg =>
      mkHttp (Throw (DbError ("Failed to close session: " ++ msg))) sys []
  | None =>
      let sys1 :=
        mkSystem (alter (λ _, mkRow false (Some now)) sessionId
                        (slidev_sessions sys)) (dobj sys) in
      if truthy durableObjectId then
        let '(sys2, out) := notifyDurableObject sendOk fetchOk NClose sys1 in
        mkHttp (Normal true) sys2 out
      else mkHttp (Normal true) sys1 []
  end.

(** ** Read endpoints and routing *)

(** [Array.from(this.reactions.values()).reduce((a, b) => a + b, 0)]: a
    sum of integers, which does not depend on the iteration order. *)
Definition totalReactions (r : gmap string Z) : Z :=
  map_fold (λ _ b a, a + b) 0 r.

(** Bodies of the HTTP responses, before [JSON.stringify]. *)
Inductive Payload :=
| PSuccess
| PError (error : string)
| PText (text : string)
| PWebSocket
| PReactions (currentSlide : Z) (reactions : gmap string (gmap string Z))
             (participants : nat)
| PAnalytics (totalReactions : Z) (totalParticipants : nat) (currentSlide : Z)
             (sessionData : SessionData).

Record Response := mkResponse { status : Z; payload : Payload }.

Definition getAnalytics : M Response :=
  r <- read reactions ;;
  p <- read participants ;;
  c <- read currentSlide ;;
  sd <- read sessionData ;;
  ret (mkResponse 200 (PAnalytics (totalReactions r) (size p) c sd)).

(** [key.split('-')]: never empty. *)
Fixpoint split_dash (s : string) : list string :=
  match s with
  | EmptyString => [EmptyString]
  | String c r =>
      if Ascii.eqb c "-" then EmptyString :: split_dash r
      else match split_dash r with
           | h :: t => String c h :: t
           | [] => [String c EmptyString]
           end
  end.

(** White space and line terminators that [parseInt] skips, in UTF-8:
    one byte (TAB, LF, VT, FF, CR, SP), two bytes (U+00A0), three bytes
    (U+1680, U+2000..U+200A, U+2028, U+2029, U+202F, U+205F, U+3000,
    U+FEFF). *)
Definition is_ws1 (a : ascii) : bool :=
  let n := N_of_ascii a in
  (N.eqb n 9 || N.eqb n 10 || N.eqb n 11 || N.eqb n 12 || N.eqb n 13
   || N.eqb n 32)%bool.

Definition is_ws2 (a b : ascii) : bool :=
  (N.eqb (N_of_ascii a) 194 && N.eqb (N_of_ascii b) 160)%bool.

Definition is_ws3 (a b c : ascii) : bool :=
  let x := N_of_ascii a in
  let y := N_of_ascii b in
  let z := N_of_ascii c in
  ((N.eqb x 225 && N.eqb y 154 && N.eqb z 128)
   || (N.eqb x 226 && N.eqb y 128
       && ((N.leb 128 z && N.leb z 138) || N.eqb z 168 || N.eqb z 169
           || N.eqb z 175))
   || (N.eqb x 226 && N.eqb y 129 && N.eqb z 159)
   || (N.eqb x 227 && N.eqb y 128 && N.eqb z 128)
   || (N.eqb x 239 && N.eqb y 187 && N.eqb z 191))%bool.

Fixpoint trimStart (s : string) : string :=
  match s with
  | EmptyString => EmptyString
  | String a r =>
      if is_ws1 a then trimStart r
      else
        match r with
        | EmptyString => s
        | String b r2 =>
            if is_ws2 a b then trimStart r2
            else
              match r2 with
              | EmptyString => s
              | String c r3 => if is_ws3 a b c then trimStart r3 else s
              end
        end
  end.

Definition dec_digit (a : ascii) : option (Decimal.uint → Decimal.uint) :=
  let n := N_of_ascii a in
  if N.eqb n 48 then Some Decimal.D0 else if N.eqb n 49 then Some Decimal.D1
  else if N.eqb n 50 then Some Decimal.D2 else if N.eqb n 51 then Some Decimal.D3
  else if N.eqb n 52 then Some Decimal.D4 else if N.eqb n 53 then Some Decimal.D5
  else if N.eqb n 54 then Some Decimal.D6 else if N.eqb n 55 then Some Decimal.D7
  else if N.eqb n 56 then Some Decimal.D8 else if N.eqb n 57 then Some Decimal.D9
  else None.

Definition hex_digit (a : ascii)
    : option (Hexadecimal.uint → Hexadecimal.uint) :=
  let n := N_of_ascii a in
  if N.eqb n 48 then Some Hexadecimal.D0 else if N.eqb n 49 then Some Hexadecimal.D1
  else if N.eqb n 50 then Some Hexadecimal.D2 else if N.eqb n 51 then Some Hexadecimal.D3
  else if N.eqb n 52 then Some Hexadecimal.D4 else if N.eqb n 53 then Some Hexadecimal.D5
  else if N.eqb n 54 then Some Hexadecimal.D6 else if N.eqb n 55 then Some Hexadecimal.D7
  else if N.eqb n 56 then Some Hexadecimal.D8 else if N.eqb n 57 then Some Hexadecimal.D9
  else if (N.eqb n 97 || N.eqb n 65)%bool then Some Hexadecimal.Da
  else if (N.eqb n 98 || N.eqb n 66)%bool then Some Hexadecimal.Db
  else if (N.eqb n 99 || N.eqb n 67)%bool then Some Hexadecimal.Dc
  else if (N.eqb n 100 || N.eqb n 68)%bool then Some Hexadecimal.Dd
  else if (N.eqb n 101 || N.eqb n 69)%bool then Some Hexadecimal.De
  else if (N.eqb n 102 || N.eqb n 70)%bool then Some Hexadecimal.Df
  else None.

(** The longest prefix of digits, most significant digit first. *)
Fixpoint dec_prefix (s : string) : Decimal.uint :=
  match s with
  | EmptyString => Decimal.Nil
  | String a r =>
      match dec_digit a with
      | Some d => d (dec_prefix r)
      | None => Decimal.Nil
      end
  end.

Fixpoint hex_prefix (s : string) : Hexadecimal.uint :=
  match s with
  | EmptyString => Hexadecimal.Nil
  | String a r =>
      match hex_digit a with
      | Some d => d (hex_prefix r)
      | None => Hexadecimal.Nil
      end
  end.

(** [parseInt(s)] without a radix; [None] is [NaN]. Leading white space
    is skipped, then a sign, then [0x] or [0X] selects radix 16; the
    longest prefix of digits is read and the rest is ignored. *)
Definition parseInt (s : string) : option Z :=
  let s1 := trimStart s in
  let '(sign, s2) :=
    match s1 with
    | String a r =>
        if Ascii.eqb a "-" then (-1, r)
        else if Ascii.eqb a "+" then (1, r)
        else (1, s1)
    | EmptyString => (1, s1)
    end in
  match s2 with
  | String a (String b r) =>
      if (Ascii.eqb a "0" && (Ascii.eqb b "x" || Ascii.eqb b "X"))%bool then
        match hex_prefix r with
        | Hexadecimal.Nil => None
        | u => Some (sign * Z.of_hex_uint u)
        end
      else
        match dec_prefix s2 with
        | Decimal.Nil => None
        | u => Some (sign * Z.of_uint u)
        end
  | _ =>
      match dec_prefix s2 with
      | Decimal.Nil => None
      | u => Some (sign * Z.of_uint u)
      end
  end.

(** The property key that a number becomes when it indexes an object. *)
Definition number_key (n : option Z) : string :=
  match n with
  | Some z => Number_toString z
  | None => "NaN"
  end.

(** [const [slide, emoji] = key.split('-')] and the two property keys
    that the callback of [getReactions] computes from them: the slide
    goes through [parseInt], a missing second part is [undefined]. *)
Definition key_parts (key : string) : string * string :=
  let parts := split_dash key in
  (number_key (parseInt (default EmptyString (head parts))),
   default "undefined" (head (tail parts))).

(** One turn of the [forEach] of [getReactions]. Assigning a number to
    [__proto__] of a plain object does nothing. *)
Definition slideReactions_step (acc : gmap string (gmap string Z))
    (entry : string * Z) : gmap string (gmap string Z) :=
  let '(slideKey, emojiKey) := key_parts entry.1 in
  let inner := default ∅ (acc !! slideKey) in
  <[slideKey :=
      if String.eqb emojiKey "__proto__" then inner
      else <[emojiKey := entry.2]> inner]> acc.

(** [entries] are the entries of [this.reactions] in the iteration order
    of the JavaScript [Map], which the finite map of the state does not
    record. *)
Definition slideReactions (entries : list (string * Z))
    : gmap string (gmap string Z) :=
  foldl slideReactions_step ∅ entries.

Definition getReactions (entries : list (string * Z)) : M Response :=
  c <- read currentSlide ;;
  p <- read participants ;;
  ret (mkResponse 200 (PReactions c (slideReactions entries) (size p))).

(** The entries of a tally in some order. *)
Definition entries_of (entries : list (string * Z)) (r : gmap string Z) : Prop :=
  entries ≡ₚ map_to_list r.

(** An HTTP request as [fetch] reads it: the [Upgrade] header, the
    pathname of the URL, and the JSON body as [handleInit] and as
    [handleNotify] take it ([None]: [request.json()] rejects). *)
Record Request := mkRequest {
  upgrade : option string;
  pathname : string;
  json_init : option SessionData;
  json_notify : option NotifyData
}.

(** The upgrade accepts the socket and installs the listeners
    ([onMessage], [onClose]); the fields of the object are not touched. *)
Definition handleWebSocket : M Response :=
  ret (mkResponse 101 PWebSocket).

Definition fetch (sendOk : WebSocket → bool) (entries : list (string * Z))
    (request : Request) : M Response :=
  if match upgrade request with
     | Some v => String.eqb v "websocket"
     | None => false
     end
  then handleWebSocket
  else if String.eqb (pathname request) "/init" then
    s <- handleInit (json_init request) ;;
    ret (if Z.eqb s 200 then mkResponse 200 PSuccess
         else mkResponse 400 (PError "Failed to initialize"))
  else if String.eqb (pathname request) "/notify" then
    s <- handleNotify sendOk (json_notify request) ;;
    ret (if Z.eqb s 200 then mkResponse 200 PSuccess
         else mkResponse 400 (PError "Failed to notify"))
  else if String.eqb (pathname request) "/reactions" then getReactions entries
  else if String.eqb (pathname request) "/analytics" then getAnalytics
  else ret (mkResponse 404 (PText "Not found")).

(** ** Vocabulary of the statements *)

(** Keys of the entries of [l] whose socket refuses the frame. *)
Definition dead (sendOk : WebSocket → bool) (l : list (WebSocket * Session))
    : list WebSocket :=
  (filter (λ e, sendOk e.1 ≠ true) l).*1.

(** Presenters whose [send] returns. *)
Definition live_presenters (sendOk : WebSocket → bool)
    (s : list (WebSocket * Session))
    : list (WebSocket * Session) :=
  filter (λ e, role e.2 = "presenter" ∧ sendOk e.1 = true) s.

Definition dead_presenters (sendOk : WebSocket → bool)
    (s : list (WebSocket * Session)) : list WebSocket :=
  (filter (λ e, role e.2 = "presenter" ∧ sendOk e.1 ≠ true) s).*1.

(** The registered token of a join frame. *)
Definition join_token (now : Z) (tok : option string) : string :=
  if truthy tok then default EmptyString tok
  else "anon-" ++ Number_toString now.

(** The participant set after a join frame. *)
Definition join_participants (tok : option string) (p : gset string)
    : gset string :=
  if truthy tok then {[default EmptyString tok]} ∪ p else p.

(** The participant set after the [close] listener ran for [ws]. *)
Definition close_participants (ws : WebSocket) (st : DO) : gset string :=
  match JSMap.get ws (sessions st) with
  | Some session =>
      if negb (String.eqb (sessionToken session) EmptyString)
      then participants st ∖ {[sessionToken session]}
      else participants st
  | None => participants st
  end.

(** No character of [s] is the separator of a tally key. *)
Fixpoint no_dash (s : string) : Prop :=
  match s with
  | EmptyString => True
  | String c r => c ≠ "-"%char ∧ no_dash r
  end.

(** A token of the shape under which a join frame without a token is
    registered ([`anon-${Date.now()}`]). *)
Definition generated_token (t : string) : Prop :=
  ∃ now : Z, t = "anon-" ++ Number_toString now.

(** Every registered token is a non-empty string. *)
Definition tokens_nonempty (s : list (WebSocket * Session)) : Prop :=
  Forall (λ e, sessionToken e.2 ≠ EmptyString) s.

(** ** Vocabulary of the further statements *)

(** The slide that an event asks for, if it is a slide-change frame. *)
Definition slide_request (ev : Event) : option Z :=
  match ev with
  | EMessage _ _ (MSlideChange s) => Some s
  | _ => None
  end.

(** The slide of the last slide-change frame of a trace, [c] if none. *)
Fixpoint last_slide (evs : list ((WebSocket → bool) * Event)) (c : Z) : Z :=
  match evs with
  | [] => c
  | (_, ev) :: r => last_slide r (default c (slide_request ev))
  end.

Definition is_reaction_frame (ev : Event) : bool :=
  match ev with
  | EMessage _ _ (MReaction _ _) => true
  | _ => false
  end.

(** Number of reaction frames in a trace, whatever their pair. *)
Definition reaction_frames (evs : list ((WebSocket → bool) * Event)) : nat :=
  length (filter (λ e, is_reaction_frame e.2 = true) evs).

(** The cursor that the constructor restores from a checkpointed [c]. *)
Definition restored_cursor (c : Z) : Z := if Z.eqb c 0 then 1 else c.

(** Events that relay a body posted to [/notify]. *)
Definition is_notify (ev : Event) : bool :=
  match ev with
  | ENotify _ => true
  | _ => false
  end.

(** A frame of the object's own making that agrees with the state [st].
    A question and a pong carry nothing of the state; a body relayed
    from [/notify] is forwarded as posted, whatever the state, and is
    never such a frame. *)
Definition reports (st : DO) (m : OutMsg) : Prop :=
  match m with
  | OInit c r n =>
      c = currentSlide st ∧ r = reactions st ∧ n = size (participants st)
  | OReaction e s n => n = count_of (reactions st) s e
  | OSlideChange s => s = currentSlide st
  | OParticipants n => n = size (participants st)
  | OUpdate d => d ⊆ sessionData st
  | OQuestion _ _ _ | OPong => True
  | ONotify _ => False
  end.

(** A slide number that the code prints digit by digit and reads back
    unchanged: an integer from 0 up to, not including, 2^53. *)
Definition safe_slide (slide : Z) : Prop := (0 ≤ slide < 2 ^ 53)%Z.

(** A symbol that [getReactions] reports under its own name. *)
Definition plain_symbol (emoji : string) : Prop :=
  no_dash emoji ∧ emoji ≠ "__proto__".

(** A trace whose reaction frames have a safe slide and a plain
    symbol. *)
Definition plain_frames (evs : list ((WebSocket → bool) * Event)) : Prop :=
  Forall (λ e, match e.2 with
               | EMessage _ _ (MReaction emoji slide) =>
                   safe_slide slide ∧ plain_symbol emoji
               | _ => True
               end) evs.

(** A tally key made of a safe slide and a plain symbol. *)
Definition plain_key (key : string) : Prop :=
  ∃ slide emoji,
    key = reactionKey slide emoji ∧ safe_slide slide ∧ plain_symbol emoji.

(** One cell of a snapshot of [getReactions]. *)
Definition cell (m : gmap string (gmap string Z)) (slideKey emojiKey : string)
    : option Z :=
  m !! slideKey ≫= λ inner, inner !! emojiKey.

(** ** Scenarios

    A session of three slides with two allowed reactions, as [/init]
    receives it; one audience member joins with token [tokenA]. *)

Definition all_up : WebSocket → bool := λ _, true.

Definition deck : SessionData :=
  <["slideCount" := "3"]> {["allowedReactions" := "thumb,fire"]}.

Definition started : DO :=
  final (handle all_up (EInit (Some deck)) (construct emptyStorage)).

Definition joined : DO :=
  final (handle all_up
           (EMessage 10 1%nat (MJoin "audience" (Some "tokenA"))) started).

(** A presenter joins the audience member. *)
Definition room : DO :=
  final (handle all_up
           (EMessage 11 2%nat (MJoin "presenter" (Some "tokenP"))) joined).

(** The audience member opens a second connection with the same token. *)
Definition two_tabs : DO :=
  final (handle all_up
           (EMessage 11 2%nat (MJoin "audience" (Some "tokenA"))) joined).

(** A transport on which socket 1 is broken. *)
Definition one_down : WebSocket → bool := λ ws, negb (Nat.eqb ws 1).

(** The directory row of the session and its Durable Object, with the
    audience member connected. *)
Definition live_system : System :=
  mkSystem {["s1" := mkRow true None]} joined.

(** Two connections: socket 1 registers the token [anon-1700000000000];
    socket 2 joins without a token at time 1700000000000. *)
Definition named_anon : DO :=
  final (handle all_up
           (EMessage 1699999999000 1%nat
              (MJoin "audience" (Some "anon-1700000000000"))) started).

Definition with_anonymous : DO :=
  final (handle all_up
           (EMessage 1700000000000 2%nat (MJoin "audience" None)) named_anon).

(** * Properties *)

(** ** The registry as a map *)

Section jsmap_facts.
Context {K V : Type} `{EqDecision K}.
Implicit Types (m : list (K * V)) (k : K) (v : V).

Lemma get_Some_elem m k v : JSMap.get k m = Some v → (k, v) ∈ m.
Proof.
  induction m as [|[k' v'] m IH]; simpl; [done|].
  case_decide as Hk.
  - intros [= ->]. subst. left.
  - intros Hg. right. auto.
Qed.

Lemma elem_get_Some m k v : JSMap.wf m → (k, v) ∈ m → JSMap.get k m = Some v.
Proof.
  unfold JSMap.wf, JSMap.keys.
  induction m as [|[k' v'] m IH]; simpl; intros Hnd Hin.
  - by apply elem_of_nil in Hin.
  - apply NoDup_cons in Hnd as [Hfresh Hnd].
    apply elem_of_cons in Hin as [[= -> ->]|Hin].
    + by rewrite decide_True.
    + rewrite decide_False; [by apply IH|].
      intros ->. apply Hfresh. apply list_elem_of_fmap. by exists (k', v).
Qed.

Lemma get_None_keys m k : JSMap.get k m = None ↔ k ∉ JSMap.keys m.
Proof.
  unfold JSMap.keys.
  induction m as [|[k' v'] m IH]; simpl.
  - split; [intros _; apply not_elem_of_nil|done].
  - case_decide as Hk.
    + subst. split; [done|]. intros Hn. exfalso. apply Hn. left.
    + rewrite IH, not_elem_of_cons. tauto.
Qed.

Lemma get_filter_key (P : K → Prop) `{∀ x, Decision (P x)} m k :
  JSMap.get k (filter (λ e, P e.1) m) = if decide (P k) then JSMap.get k m else None.
Proof.
  induction m as [|[k' v'] m IH]; simpl; [by case_decide|].
  rewrite filter_cons. simpl.
  destruct (decide (P k')) as [Hk'|Hk']; simpl.
  - destruct (decide (k = k')) as [->|]; [by rewrite decide_True|done].
  - rewrite IH. destruct (decide (k = k')) as [->|]; [|done].
    by rewrite !decide_False by done.
Qed.

Lemma get_delete m k k' :
  JSMap.get k (JSMap.delete k' m) = if decide (k = k') then None else JSMap.get k m.
Proof.
  unfold JSMap.delete.
  etrans; [exact (get_filter_key (λ x, x ≠ k') m k)|].
  destruct (decide (k = k')) as [->|Hne].
  - by rewrite decide_False by (intros Hc; by apply Hc).
  - by rewrite decide_True.
Qed.

Lemma get_set m k k' v :
  JSMap.get k (JSMap.set k' v m) = if decide (k = k') then Some v else JSMap.get k m.
Proof.
  induction m as [|[k0 v0] m IH]; simpl.
  - destruct (decide (k = k')); done.
  - destruct (decide (k' = k0)) as [->|Hne]; simpl.
    + destruct (decide (k = k0)); done.
    + destruct (decide (k = k0)) as [->|].
      * by rewrite decide_False by done.
      * apply IH.
Qed.

Lemma keys_set m k v :
  JSMap.keys (JSMap.set k v m) =
  if decide (k ∈ JSMap.keys m) then JSMap.keys m else (JSMap.keys m ++ [k])%list.
Proof.
  unfold JSMap.keys.
  induction m as [|[k0 v0] m IH].
  - destruct (decide (k ∈ ([] : list (K * V)).*1)) as [Hin|_]; [|done].
    by apply elem_of_nil in Hin.
  - cbn [JSMap.set]. destruct (decide (k = k0)) as [->|Hne].
    + destruct (decide (k0 ∈ ((k0, v0) :: m).*1)) as [_|Hn]; [done|].
      exfalso. apply Hn. left.
    + rewrite fmap_cons, IH. cbn [fst].
      destruct (decide (k ∈ m.*1)) as [Hin|Hin];
        destruct (decide (k ∈ ((k0, v0) :: m).*1)) as [Hin'|Hin']; try done.
      * exfalso. apply Hin'. by right.
      * rewrite fmap_cons in Hin'. apply elem_of_cons in Hin' as [?|?]; done.
Qed.

Lemma wf_nil : JSMap.wf ([] : list (K * V)).
Proof. apply NoDup_nil_2. Qed.

Lemma wf_set m k v : JSMap.wf m → JSMap.wf (JSMap.set k v m).
Proof.
  unfold JSMap.wf. rewrite keys_set. case_decide as Hin; [done|].
  intros Hnd. apply NoDup_app. split_and!; [done| |apply NoDup_singleton].
  intros x Hx Hx'. apply list_elem_of_singleton in Hx'. by subst.
Qed.

Lemma wf_filter (P : K * V → Prop) `{∀ x, Decision (P x)} m :
  JSMap.wf m → JSMap.wf (filter P m).
Proof.
  unfold JSMap.wf, JSMap.keys.
  induction m as [|[k0 v0] m IH]; simpl; [done|].
  rewrite NoDup_cons. intros [Hfresh Hnd]. rewrite filter_cons.
  case_decide; [|by apply IH].
  simpl. apply NoDup_cons. split; [|by apply IH].
  intros Hin. apply Hfresh.
  apply list_elem_of_fmap in Hin as [[k1 v1] [Hk Hin]]. simpl in Hk. subst.
  apply list_elem_of_filter in Hin as [_ Hin].
  apply list_elem_of_fmap. by exists (k1, v1).
Qed.

Lemma wf_delete m k : JSMap.wf m → JSMap.wf (JSMap.delete k m).
Proof. apply wf_filter. Qed.
End jsmap_facts.

(** ** Running handlers *)

Lemma bind_normal {A B} (m : M A) (k : A → M B) st a st' out :
  m st = mkRun (Normal a) st' out →
  bind m k st
  = mkRun (completion (k a st')) (final (k a st')) (out ++ sent (k a st')).
Proof. intros Hm. unfold bind. by rewrite Hm. Qed.

Lemma bind_throw {A B} (m : M A) (k : A → M B) st e st' out :
  m st = mkRun (Throw e) st' out →
  bind m k st = mkRun (Throw e) st' out.
Proof. intros Hm. unfold bind. by rewrite Hm. Qed.

Lemma bind_read {A B} (f : DO → A) (k : A → M B) st :
  bind (read f) k st = k (f st) st.
Proof. unfold bind, read. cbn. by destruct (k (f st) st). Qed.

Lemma bind_update {B} (f : DO → DO) (k : unit → M B) st :
  bind (update f) k st = k tt (f st).
Proof. unfold bind, update. cbn. by destruct (k tt (f st)). Qed.

Lemma bind_ret {A B} (a : A) (k : A → M B) st :
  bind (ret a) k st = k a st.
Proof. unfold bind, ret. cbn. by destruct (k a st). Qed.

Lemma try_send_ok (sendOk : WebSocket → bool) ws data (h : M unit) st :
  sendOk ws = true →
  try_catch (ws_send sendOk ws data) h st = mkRun (Normal tt) st [(ws, data)].
Proof. intros Hok. unfold try_catch, ws_send. rewrite Hok. done. Qed.

Lemma try_send_fail (sendOk : WebSocket → bool) ws data (f : DO → DO) st :
  sendOk ws = false →
  try_catch (ws_send sendOk ws data) (update f) st = mkRun (Normal tt) (f st) [].
Proof. intros Hok. unfold try_catch, ws_send. rewrite Hok. done. Qed.

(** ** The broadcaster *)

Section broadcaster.
Variable sendOk : WebSocket → bool.
Implicit Types (st : DO) (s l : list (WebSocket * Session)) (ws : WebSocket).

Lemma filter_all {A} (P : A → Prop) `{∀ x, Decision (P x)} (l : list A) :
  (∀ x, x ∈ l → P x) → filter P l = l.
Proof.
  induction l as [|x l IH]; intros Hall; [done|].
  rewrite filter_cons_True by (apply Hall; left).
  f_equal. apply IH. intros y Hy. apply Hall. by right.
Qed.

Lemma filter_ext_in {A} (P Q : A → Prop) `{∀ x, Decision (P x)}
    `{∀ x, Decision (Q x)} (l : list A) :
  (∀ x, x ∈ l → P x ↔ Q x) → filter P l = filter Q l.
Proof.
  induction l as [|x l IH]; intros Hall; [done|].
  rewrite !filter_cons.
  rewrite IH by (intros y Hy; apply Hall; by right).
  assert (P x ↔ Q x) as Hx by (apply Hall; left).
  destruct (decide (P x)), (decide (Q x)); tauto.
Qed.

(** The loop of [broadcast], started on the entries [l]: every live
    entry gets the frame, every dead one is deleted from the registry. *)
Lemma forEach_send (message : OutMsg) l st :
  forEach l (λ e,
    try_catch (ws_send sendOk e.1 message)
              (update (with_sessions (JSMap.delete e.1)))) st
  = mkRun (Normal tt)
          (with_sessions (filter (λ e, e.1 ∉ dead sendOk l)) st)
          (to_all (live sendOk l) message).
Proof.
  revert st. induction l as [|[ws sess] l IH]; intros st.
  - destruct st as [s r c sd p sto]. unfold ret, with_sessions. cbn.
    rewrite filter_all; [done|]. intros x _. apply not_elem_of_nil.
  - cbn [forEach]. unfold dead, live, to_all.
    rewrite !filter_cons. cbn [fst].
    destruct (sendOk ws) eqn:Hok.
    + erewrite bind_normal by (by apply try_send_ok).
      rewrite IH. cbn [completion final sent].
      rewrite (decide_True (P := true = true)) by done.
      rewrite (decide_False (P := true ≠ true)) by (intros Hc; by apply Hc).
      done.
    + erewrite bind_normal by (by apply try_send_fail).
      rewrite IH. cbn [completion final sent].
      rewrite (decide_False (P := false = true)) by done.
      rewrite (decide_True (P := false ≠ true)) by done.
      f_equal.
      destruct st as [s r c sd p sto]; unfold with_sessions; cbn. f_equal.
      unfold JSMap.delete. rewrite list_filter_filter.
      apply list_filter_iff. intros [k v]; cbn.
      rewrite not_elem_of_cons. unfold dead. tauto.
Qed.

Lemma dead_live s e : e ∈ s → e.1 ∉ dead sendOk s ↔ sendOk e.1 = true.
Proof.
  intros Hin. unfold dead. split.
  - intros Hn. destruct (sendOk e.1) eqn:Hok; [done|].
    exfalso. apply Hn. apply list_elem_of_fmap. exists e. split; [done|].
    apply list_elem_of_filter. split; [|done]. by rewrite Hok.
  - intros Hok Hd. apply list_elem_of_fmap in Hd as [x [Hx Hd]].
    apply list_elem_of_filter in Hd as [Hd _]. apply Hd. by rewrite <- Hx.
Qed.

(** [broadcast] in closed form. *)
Lemma broadcast_run (message : OutMsg) st :
  broadcast sendOk message st
  = mkRun (Normal tt) (with_sessions (live sendOk) st)
          (to_all (live sendOk (sessions st)) message).
Proof.
  unfold broadcast. rewrite bind_read, forEach_send.
  f_equal. destruct st as [s r c sd p sto]; unfold with_sessions; cbn. f_equal.
  unfold live. apply filter_ext_in. intros e He. by apply dead_live.
Qed.

Lemma forEach_send_presenters (message : OutMsg) l st :
  forEach l (λ e,
    if String.eqb (role e.2) "presenter" then
      try_catch (ws_send sendOk e.1 message)
                (update (with_sessions (JSMap.delete e.1)))
    else ret tt) st
  = mkRun (Normal tt)
          (with_sessions (filter (λ e, e.1 ∉ dead_presenters sendOk l)) st)
          (to_all (live_presenters sendOk l) message).
Proof.
  revert st. induction l as [|[ws sess] l IH]; intros st.
  - destruct st as [s r c sd p sto]. unfold ret, with_sessions. cbn.
    rewrite filter_all; [done|]. intros x _. apply not_elem_of_nil.
  - cbn [forEach]. cbn [fst snd].
    unfold dead_presenters, live_presenters, to_all.
    rewrite !filter_cons. cbn [fst snd].
    destruct (String.eqb (role sess) "presenter") eqn:Hrole.
    + apply String.eqb_eq in Hrole.
      destruct (sendOk ws) eqn:Hok.
      * erewrite bind_normal by (by apply try_send_ok).
        rewrite IH. cbn [completion final sent].
        rewrite (decide_True (P := role sess = "presenter" ∧ true = true)) by done.
        rewrite (decide_False (P := role sess = "presenter" ∧ true ≠ true))
          by (intros [_ Hc]; by apply Hc).
        done.
      * erewrite bind_normal by (by apply try_send_fail).
        rewrite IH. cbn [completion final sent].
        rewrite (decide_False (P := role sess = "presenter" ∧ false = true))
          by (intros [_ Hc]; done).
        rewrite (decide_True (P := role sess = "presenter" ∧ false ≠ true)) by done.
        f_equal.
        destruct st as [s r c sd p sto]; unfold with_sessions; cbn. f_equal.
        unfold JSMap.delete. rewrite list_filter_filter.
        apply list_filter_iff. intros [k v]; cbn.
        rewrite not_elem_of_cons. unfold dead_presenters. tauto.
    + apply String.eqb_neq in Hrole.
      rewrite bind_ret, IH.
      rewrite (decide_False (P := role sess = "presenter" ∧ sendOk ws = true))
        by (intros [Hc _]; done).
      rewrite (decide_False (P := role sess = "presenter" ∧ sendOk ws ≠ true))
        by (intros [Hc _]; done).
      done.
Qed.

Lemma broadcastToPresenters_run (message : OutMsg) st :
  broadcastToPresenters sendOk message st
  = mkRun (Normal tt)
          (with_sessions (filter (λ e, e.1 ∉ dead_presenters sendOk (sessions st))) st)
          (to_all (live_presenters sendOk (sessions st)) message).
Proof.
  unfold broadcastToPresenters. by rewrite bind_read, forEach_send_presenters.
Qed.
End broadcaster.

(** ** The handlers in closed form *)

Section handlers.
Variable sendOk : WebSocket → bool.
Implicit Types (st : DO) (ws : WebSocket).

Lemma handleReaction_run emoji slide st :
  handleReaction sendOk emoji slide st
  = let key := reactionKey slide emoji in
    let n := or_zero (reactions st !! key) + 1 in
    let r' := <[key := n]> (reactions st) in
    mkRun (Normal tt)
      (mkDO (live sendOk (sessions st)) r' (currentSlide st) (sessionData st)
            (participants st)
            (mkStorage (stored_currentSlide (storage st)) (Some r')
                       (stored_sessionData (storage st))))
      (to_all (live sendOk (sessions st)) (OReaction emoji slide n)).
Proof.
  unfold handleReaction.
  rewrite bind_read, bind_update, bind_read, bind_update, broadcast_run.
  by destruct st.
Qed.

Lemma handleSlideChange_run slide st :
  handleSlideChange sendOk slide st
  = mkRun (Normal tt)
      (mkDO (live sendOk (sessions st)) (reactions st) slide (sessionData st)
            (participants st)
            (mkStorage (Some slide) (stored_reactions (storage st))
                       (stored_sessionData (storage st))))
      (to_all (live sendOk (sessions st)) (OSlideChange slide)).
Proof.
  unfold handleSlideChange.
  rewrite bind_update, bind_read, bind_update, bind_read, broadcast_run.
  by destruct st.
Qed.

Lemma handleUpdate_run data st :
  handleUpdate sendOk data st
  = mkRun (Normal tt)
      (mkDO (live sendOk (sessions st)) (reactions st) (currentSlide st)
            (data ∪ sessionData st) (participants st)
            (mkStorage (stored_currentSlide (storage st))
                       (stored_reactions (storage st))
                       (Some (data ∪ sessionData st))))
      (to_all (live sendOk (sessions st)) (OUpdate data)).
Proof.
  unfold handleUpdate.
  rewrite bind_read, bind_update, bind_read, bind_update, broadcast_run.
  by destruct st.
Qed.

Lemma handleQuestion_run text slide tok st :
  handleQuestion sendOk text slide tok st
  = mkRun (Normal tt)
      (with_sessions
         (filter (λ e, e.1 ∉ dead_presenters sendOk (sessions st))) st)
      (to_all (live_presenters sendOk (sessions st)) (OQuestion text slide tok)).
Proof. unfold handleQuestion. apply broadcastToPresenters_run. Qed.

Lemma broadcastParticipantCount_run st :
  broadcastParticipantCount sendOk st
  = mkRun (Normal tt) (with_sessions (live sendOk) st)
      (to_all (live sendOk (sessions st)) (OParticipants (size (participants st)))).
Proof. unfold broadcastParticipantCount. by rewrite bind_read, broadcast_run. Qed.

Lemma join_run now ws r tok st :
  handleWebSocketMessage sendOk now ws (MJoin r tok) st
  = let s' := JSMap.set ws (mkSession r (join_token now tok)) (sessions st) in
    let p' := join_participants tok (participants st) in
    let init := OInit (currentSlide st) (reactions st) (size p') in
    if sendOk ws then
      mkRun (Normal tt)
        (mkDO (live sendOk s') (reactions st) (currentSlide st) (sessionData st)
              p' (storage st))
        ((ws, init) :: to_all (live sendOk s') (OParticipants (size p')))
    else
      mkRun (Throw (SocketClosed ws))
        (mkDO s' (reactions st) (currentSlide st) (sessionData st) p' (storage st))
        [].
Proof.
  unfold handleWebSocketMessage, join_token, join_participants.
  rewrite bind_update.
  destruct (truthy tok) eqn:Htok.
  - rewrite (bind_normal _ _ _ tt
      (with_participants ({[default EmptyString tok]} ∪ participants st)
         (with_sessions (JSMap.set ws (mkSession r (default EmptyString tok))) st)) [])
      by (by rewrite bind_read).
    rewrite !bind_read. unfold ws_send.
    destruct (sendOk ws) eqn:Hok.
    + erewrite bind_normal by reflexivity.
      rewrite broadcastParticipantCount_run. by destruct st.
    + erewrite bind_throw by reflexivity. by destruct st.
  - rewrite bind_ret, !bind_read. unfold ws_send.
    destruct (sendOk ws) eqn:Hok.
    + erewrite bind_normal by reflexivity.
      rewrite broadcastParticipantCount_run. by destruct st.
    + erewrite bind_throw by reflexivity. by destruct st.
Qed.

Lemma onClose_run ws st :
  onClose sendOk ws st
  = let s' := JSMap.delete ws (sessions st) in
    let p' := close_participants ws st in
    mkRun (Normal tt)
      (mkDO (live sendOk s') (reactions st) (currentSlide st) (sessionData st)
            p' (storage st))
      (to_all (live sendOk s') (OParticipants (size p'))).
Proof.
  unfold onClose, close_participants. rewrite bind_read.
  destruct (JSMap.get ws (sessions st)) as [session|] eqn:Hget.
  - destruct (negb (String.eqb (sessionToken session) EmptyString)) eqn:Htok.
    + rewrite (bind_normal _ _ _ tt
        (with_participants (participants st ∖ {[sessionToken session]}) st) [])
        by (by rewrite bind_read).
      rewrite bind_update, broadcastParticipantCount_run. by destruct st.
    + rewrite bind_ret, bind_update, broadcastParticipantCount_run.
      by destruct st.
  - rewrite bind_ret, bind_update, broadcastParticipantCount_run.
    by destruct st.
Qed.

Lemma handleNotify_run body st :
  handleNotify sendOk body st
  = match body with
    | Some data =>
        mkRun (Normal 200) (with_sessions (live sendOk) st)
              (to_all (live sendOk (sessions st)) (ONotify data))
    | None => mkRun (Normal 400) st []
    end.
Proof.
  unfold handleNotify. destruct body as [data|].
  - unfold try_catch.
    erewrite bind_normal by apply broadcast_run. cbn. by rewrite app_nil_r.
  - done.
Qed.

Lemma handleInit_run body st :
  handleInit body st
  = match body with
    | Some data =>
        mkRun (Normal 200)
          (mkDO (sessions st) (reactions st) (currentSlide st) data
                (participants st)
                (mkStorage (stored_currentSlide (storage st))
                           (stored_reactions (storage st)) (Some data)))
          []
    | None => mkRun (Normal 400) st []
    end.
Proof.
  unfold handleInit. destruct body as [data|]; [|done].
  unfold try_catch. rewrite bind_update, bind_read, bind_update.
  by destruct st.
Qed.

(** The listener swallows what the handler throws. *)
Lemma onMessage_run now ws message st :
  onMessage sendOk now ws message st
  = let r := handleWebSocketMessage sendOk now ws message st in
    mkRun (Normal tt) (final r) (sent r).
Proof.
  unfold onMessage, try_catch. cbn.
  destruct (handleWebSocketMessage sendOk now ws message st) as [[[]|e] st' out];
    cbn; [done|]. by rewrite app_nil_r.
Qed.
End handlers.

(** ** Tally keys *)

Lemma no_dash_uint d : no_dash (NilEmpty.string_of_uint d).
Proof. induction d; cbn; auto; split; auto; discriminate. Qed.

Lemma uint_nonempty d :
  d ≠ Decimal.Nil →
  ∃ c r, NilEmpty.string_of_uint d = String c r ∧ c ≠ "-"%char.
Proof. destruct d; [done|..]; intros _; cbn; eexists _, _; split; eauto; discriminate. Qed.

Lemma to_uint_nonempty n :
  ∃ d, d ≠ Decimal.Nil ∧
       (Z.to_int n = Decimal.Pos d ∨ Z.to_int n = Decimal.Neg d).
Proof.
  destruct n as [|p|p]; cbn.
  - exists (Decimal.D0 Decimal.Nil). split; [discriminate|by left].
  - exists (Pos.to_uint p). split; [apply Unsigned.to_uint_nonnil|by left].
  - exists (Pos.to_uint p). split; [apply Unsigned.to_uint_nonnil|by right].
Qed.

Lemma Number_toString_inj n n' :
  Number_toString n = Number_toString n' → n = n'.
Proof.
  unfold Number_toString. intros Heq. apply DecimalZ.to_int_inj.
  pose proof (NilEmpty.isi (Z.to_int n)) as H1.
  pose proof (NilEmpty.isi (Z.to_int n')) as H2.
  rewrite Heq in H1. congruence.
Qed.

(** Two digit strings followed by the separator agree when the whole
    strings agree. *)
Lemma split_at_dash a b e e' :
  no_dash a → no_dash b →
  a ++ String "-" e = b ++ String "-" e' → a = b ∧ e = e'.
Proof.
  revert b. induction a as [|c a IH]; intros [|c' b]; cbn.
  - intros _ _ [= ->]. done.
  - intros _ [Hc _] [= <- _]. done.
  - intros [Hc _] _ [= -> _]. done.
  - intros [_ Ha] [_ Hb] [= -> Heq].
    destruct (IH b Ha Hb Heq) as [-> ->]. done.
Qed.

Lemma reactionKey_inj slide emoji slide' emoji' :
  reactionKey slide emoji = reactionKey slide' emoji' →
  slide = slide' ∧ emoji = emoji'.
Proof.
  unfold reactionKey. intros Heq.
  cut (Number_toString slide = Number_toString slide' ∧ emoji = emoji').
  { intros [Hn ->]. split; [by apply Number_toString_inj|done]. }
  revert Heq. unfold Number_toString.
  destruct (to_uint_nonempty slide) as (d & Hd & [-> | ->]);
    destruct (to_uint_nonempty slide') as (d' & Hd' & [-> | ->]); cbn.
  - apply split_at_dash; apply no_dash_uint.
  - destruct (uint_nonempty d Hd) as (c & r & -> & Hc). cbn.
    intros [= -> _]. done.
  - destruct (uint_nonempty d' Hd') as (c & r & -> & Hc). cbn.
    intros [= <- _]. done.
  - intros [= Heq].
    destruct (split_at_dash _ _ _ _ (no_dash_uint d) (no_dash_uint d') Heq)
      as [-> ->]. done.
Qed.

Lemma or_zero_default o : or_zero o = default 0 o.
Proof.
  destruct o as [n|]; cbn; [|done].
  destruct (Z.eqb_spec n 0) as [->|]; done.
Qed.

(** ** One event at a time *)

Section steps.
Variable sendOk : WebSocket → bool.
Implicit Types (st : DO) (ws : WebSocket) (ev : Event).

Lemma handle_notify_run body st :
  handle sendOk (ENotify body) st
  = match body with
    | Some data =>
        mkRun (Normal tt) (with_sessions (live sendOk) st)
              (to_all (live sendOk (sessions st)) (ONotify data))
    | None => mkRun (Normal tt) st []
    end.
Proof.
  unfold handle. destruct body as [data|].
  - erewrite bind_normal by exact (handleNotify_run sendOk (Some data) st).
    cbn. by rewrite app_nil_r.
  - by erewrite bind_normal by exact (handleNotify_run sendOk None st).
Qed.

Lemma handle_init_run body st :
  handle sendOk (EInit body) st
  = mkRun (Normal tt) (final (handleInit body st)) [].
Proof.
  unfold handle. rewrite handleInit_run.
  destruct body; by erewrite bind_normal by reflexivity.
Qed.

(** The tally after one event: only a reaction frame writes it. *)
Lemma handle_reactions ev st :
  reactions (final (handle sendOk ev st))
  = match ev with
    | EMessage _ _ (MReaction emoji slide) =>
        <[reactionKey slide emoji :=
            or_zero (reactions st !! reactionKey slide emoji) + 1]> (reactions st)
    | _ => reactions st
    end.
Proof.
  destruct ev as [now ws message|ws|body|body].
  - cbn [handle]. rewrite onMessage_run. cbn.
    destruct message; [|cbn [handleWebSocketMessage]..].
    + rewrite join_run. cbn. by destruct (sendOk ws).
    + by rewrite handleReaction_run.
    + by rewrite handleQuestion_run.
    + by rewrite handleSlideChange_run.
    + by rewrite handleUpdate_run.
    + unfold ws_send. by destruct (sendOk ws).
    + done.
  - cbn [handle]. by rewrite onClose_run.
  - rewrite handle_notify_run. by destruct body.
  - rewrite handle_init_run, handleInit_run. by destruct body.
Qed.

(** The registry after one event. *)
Lemma handle_sessions ev st :
  sessions (final (handle sendOk ev st))
  = match ev with
    | EMessage now ws (MJoin r tok) =>
        let s' := JSMap.set ws (mkSession r (join_token now tok)) (sessions st) in
        if sendOk ws then live sendOk s' else s'
    | EMessage _ _ (MQuestion _ _ _) =>
        filter (λ e, e.1 ∉ dead_presenters sendOk (sessions st)) (sessions st)
    | EMessage _ _ MPing | EMessage _ _ (MOther _) | ENotify None | EInit _ =>
        sessions st
    | EClose ws => live sendOk (JSMap.delete ws (sessions st))
    | _ => live sendOk (sessions st)
    end.
Proof.
  destruct ev as [now ws message|ws|body|body].
  - cbn [handle]. rewrite onMessage_run. cbn.
    destruct message; [|cbn [handleWebSocketMessage]..].
    + rewrite join_run. cbn. by destruct (sendOk ws).
    + by rewrite handleReaction_run.
    + by rewrite handleQuestion_run.
    + by rewrite handleSlideChange_run.
    + by rewrite handleUpdate_run.
    + unfold ws_send. by destruct (sendOk ws).
    + done.
  - cbn [handle]. by rewrite onClose_run.
  - rewrite handle_notify_run. by destruct body.
  - rewrite handle_init_run, handleInit_run. by destruct body.
Qed.

Lemma handle_wf ev st :
  JSMap.wf (sessions st) → JSMap.wf (sessions (final (handle sendOk ev st))).
Proof.
  intros Hwf. rewrite handle_sessions.
  destruct ev as [now ws [r tok| | | | | |]|ws|[data|]|body];
    cbn; try done; try (by apply wf_filter).
  - destruct (sendOk ws); [apply wf_filter|]; by apply wf_set.
  - by apply wf_filter, wf_delete.
Qed.
End steps.

Lemma reachable_wf st : reachable st → JSMap.wf (sessions st).
Proof.
  induction 1 as [stored|ok ev st _ IH]; [apply wf_nil|by apply handle_wf].
Qed.

(** ** The reaction tally *)

Lemma or_zero_succ o : or_zero (Some (or_zero o + 1)) = or_zero o + 1.
Proof. cbn. by destruct (Z.eqb_spec (or_zero o + 1) 0) as [->|]. Qed.

Lemma count_of_insert r s e slide emoji :
  count_of (<[reactionKey s e := or_zero (r !! reactionKey s e) + 1]> r) slide emoji
  = count_of r slide emoji
    + (if Z.eqb s slide && String.eqb e emoji then 1 else 0).
Proof.
  unfold count_of.
  destruct (Z.eqb_spec s slide) as [->|Hs]; cbn [andb].
  - destruct (String.eqb_spec e emoji) as [->|He].
    + by rewrite lookup_insert_eq, or_zero_succ.
    + rewrite lookup_insert_ne; [lia|].
      intros Hk. by apply reactionKey_inj in Hk as [_ ?].
  - rewrite lookup_insert_ne; [lia|].
    intros Hk. by apply reactionKey_inj in Hk as [? _].
Qed.

Lemma handle_count ok ev st slide emoji :
  count_of (reactions (final (handle ok ev st))) slide emoji
  = count_of (reactions st) slide emoji
    + (if is_reaction_for slide emoji ev then 1 else 0).
Proof.
  rewrite handle_reactions.
  destruct ev as [now ws [| e s | | | | |]| | |]; cbn [is_reaction_for]; try lia.
  apply count_of_insert.
Qed.

Lemma run_events_count evs st slide emoji :
  count_of (reactions (run_events evs st)) slide emoji
  = count_of (reactions st) slide emoji
    + Z.of_nat (reaction_calls slide emoji evs).
Proof.
  revert st. induction evs as [|[ok ev] evs IH]; intros st.
  - cbn. lia.
  - cbn [run_events]. rewrite IH, handle_count.
    unfold reaction_calls. rewrite filter_cons. cbn [snd].
    destruct (is_reaction_for slide emoji ev).
    + rewrite decide_True by done. cbn [length]. lia.
    + rewrite decide_False by done. lia.
Qed.

(** C1. Every reaction frame is accepted. After any trace of events on
    a session, the tally of a pair (slide, symbol) is its tally before
    the trace plus the number of reaction frames for that exact pair;
    from a fresh session it is that number. Each reaction frame completes
    normally and sends to every live connection a reaction message whose
    count is the tally of the pair after the increment. *)
Theorem C1_tally_counts_calls :
  ∀ (evs : list ((WebSocket → bool) * Event)) (slide : Z) (emoji : string),
    (∀ st,
       count_of (reactions (run_events evs st)) slide emoji
       = count_of (reactions st) slide emoji
         + Z.of_nat (reaction_calls slide emoji evs))
    ∧ count_of (reactions (run_events evs (construct emptyStorage))) slide emoji
      = Z.of_nat (reaction_calls slide emoji evs)
    ∧ (∀ ok now ws st,
         let r := handleWebSocketMessage ok now ws (MReaction emoji slide) st in
         completion r = Normal tt
         ∧ count_of (reactions (final r)) slide emoji
           = count_of (reactions st) slide emoji + 1
         ∧ sent r
           = to_all (live ok (sessions st))
               (OReaction emoji slide
                  (count_of (reactions (final r)) slide emoji))).
Proof.
  intros evs slide emoji. split_and!.
  - intros st. apply run_events_count.
  - rewrite run_events_count. cbn. unfold count_of. by rewrite lookup_empty.
  - intros ok now ws st. cbn [handleWebSocketMessage].
    rewrite handleReaction_run. cbn.
    pose proof (count_of_insert (reactions st) slide emoji slide emoji) as Hc.
    rewrite Z.eqb_refl, String.eqb_refl in Hc. cbn [andb] in Hc.
    rewrite Hc. done.
Qed.

(** The same number on a small trace: two thumbs on slide 1, one fire on
    slide 1, one thumb on slide 2, interleaved with a slide change. *)
Example tally_example :
  let all := λ _ : WebSocket, true in
  let evs :=
    [ (all, EMessage 10 1%nat (MJoin "audience" (Some "tokenA")));
      (all, EMessage 11 1%nat (MReaction "thumb" 1));
      (all, EMessage 12 1%nat (MReaction "fire" 1));
      (all, EMessage 13 2%nat (MSlideChange 2));
      (all, EMessage 14 1%nat (MReaction "thumb" 2));
      (all, EMessage 15 1%nat (MReaction "thumb" 1)) ] in
  let st := run_events evs (construct emptyStorage) in
  count_of (reactions st) 1 "thumb" = 2
  ∧ count_of (reactions st) 1 "fire" = 1
  ∧ count_of (reactions st) 2 "thumb" = 1
  ∧ currentSlide st = 2.
Proof. vm_compute. done. Qed.

(** C9. Across any single event (a frame of any type, a socket closing,
    a notification, an initialisation) no tally entry disappears and no
    tally count decreases; a slide change leaves the whole tally as it
    was. *)
Theorem C9_tally_monotone :
  ∀ (ok : WebSocket → bool) (ev : Event) (st : DO),
    let st' := final (handle ok ev st) in
    dom (reactions st) ⊆ dom (reactions st')
    ∧ (∀ key,
         (default 0 (reactions st !! key) ≤ default 0 (reactions st' !! key))%Z)
    ∧ (∀ slide emoji,
         (count_of (reactions st) slide emoji
          ≤ count_of (reactions st') slide emoji)%Z)
    ∧ (∀ now ws slide,
         reactions (final (handle ok (EMessage now ws (MSlideChange slide)) st))
         = reactions st).
Proof.
  intros ok ev st. cbn zeta. split_and!.
  - rewrite handle_reactions.
    destruct ev as [now ws [| e s | | | | |]| | |]; try done.
    rewrite dom_insert_L. apply union_subseteq_r.
  - intros key. rewrite handle_reactions.
    destruct ev as [now ws [| e s | | | | |]| | |]; try done.
    destruct (decide (reactionKey s e = key)) as [<-|Hne].
    + rewrite lookup_insert_eq, or_zero_default. cbn. lia.
    + by rewrite lookup_insert_ne.
  - intros slide emoji. rewrite handle_count.
    destruct (is_reaction_for slide emoji ev); lia.
  - intros now ws slide. by rewrite handle_reactions.
Qed.

(** ** The slide cursor *)

Lemma reachable_joined : reachable joined.
Proof. unfold joined, started. do 2 apply reach_step. apply reach_construct. Qed.

(** C2, as stated, fails: in the three-slide session a slide-change frame
    for slide 99 completes normally, moves the cursor from 1 to 99 and is
    broadcast; the resulting state is reachable with its cursor outside
    [1, 3]. *)
Lemma C2_out_of_range_counterexample :
  let r := handleWebSocketMessage all_up 20 2%nat (MSlideChange 99) joined in
  sessionData joined !! "slideCount" = Some "3"
  ∧ ¬ (1 ≤ 99 ≤ 3)%Z
  ∧ currentSlide joined = 1
  ∧ completion r = Normal tt
  ∧ currentSlide (final r) = 99
  ∧ sent r = [(1%nat, OSlideChange 99)]
  ∧ reachable (final (handle all_up (EMessage 20 2%nat (MSlideChange 99)) joined))
  ∧ currentSlide
      (final (handle all_up (EMessage 20 2%nat (MSlideChange 99)) joined)) = 99.
Proof.
  split_and!; try (vm_compute; reflexivity).
  - lia.
  - apply reach_step, reachable_joined.
Qed.

(** C2, amended. A slide-change frame is never rejected: whatever the
    target slide, the handler completes normally, sets the cursor to the
    target, checkpoints it and broadcasts it to every live connection;
    tally, participant set and session data are unchanged and the registry
    loses exactly the connections whose send failed. Hence every integer
    is the cursor of some reachable state. *)
Theorem C2_slide_change_unchecked :
  ∀ (ok : WebSocket → bool) (now : Z) (ws : WebSocket) (slide : Z) (st : DO),
    let r := handleWebSocketMessage ok now ws (MSlideChange slide) st in
    completion r = Normal tt
    ∧ currentSlide (final r) = slide
    ∧ stored_currentSlide (storage (final r)) = Some slide
    ∧ reactions (final r) = reactions st
    ∧ participants (final r) = participants st
    ∧ sessionData (final r) = sessionData st
    ∧ sessions (final r) = live ok (sessions st)
    ∧ sent r = to_all (live ok (sessions st)) (OSlideChange slide)
    ∧ ∃ st', reachable st' ∧ currentSlide st' = slide.
Proof.
  intros ok now ws slide st. cbn [handleWebSocketMessage].
  rewrite handleSlideChange_run. cbn. split_and!; try done.
  exists (final (handle ok (EMessage now ws (MSlideChange slide))
                   (construct emptyStorage))).
  split; [apply reach_step, reach_construct|].
  cbn [handle]. rewrite onMessage_run. cbn [handleWebSocketMessage].
  by rewrite handleSlideChange_run.
Qed.

(** C4, as stated, fails: connection 1 is registered with role audience;
    its slide-change frame completes normally, sets the cursor to 2 and
    is broadcast. The same holds for connection 5, which never joined. *)
Lemma C4_audience_moves_cursor_counterexample :
  let r := handleWebSocketMessage all_up 20 1%nat (MSlideChange 2) joined in
  let r' := handleWebSocketMessage all_up 20 5%nat (MSlideChange 2) joined in
  JSMap.get 1%nat (sessions joined) = Some (mkSession "audience" "tokenA")
  ∧ JSMap.get 5%nat (sessions joined) = None
  ∧ currentSlide joined = 1
  ∧ completion r = Normal tt ∧ currentSlide (final r) = 2
  ∧ sent r = [(1%nat, OSlideChange 2)]
  ∧ completion r' = Normal tt ∧ currentSlide (final r') = 2.
Proof. vm_compute. repeat split; reflexivity. Qed.

(** C4, amended. The role of the requesting connection is not consulted:
    a slide-change frame has the same outcome on whichever socket it
    arrives, registered or not, presenter or audience; the cursor is set
    and the slide change reaches every live connection. *)
Theorem C4_slide_change_any_role :
  ∀ (ok : WebSocket → bool) (now now' : Z) (ws ws' : WebSocket) (slide : Z)
    (st : DO),
    handleWebSocketMessage ok now ws (MSlideChange slide) st
    = handleWebSocketMessage ok now' ws' (MSlideChange slide) st
    ∧ completion (handleWebSocketMessage ok now ws (MSlideChange slide) st)
      = Normal tt
    ∧ currentSlide
        (final (handleWebSocketMessage ok now ws (MSlideChange slide) st))
      = slide
    ∧ ∀ c, ok c = true → is_Some (JSMap.get c (sessions st)) →
           (c, OSlideChange slide)
           ∈ sent (handleWebSocketMessage ok now ws (MSlideChange slide) st).
Proof.
  intros ok now now' ws ws' slide st. cbn [handleWebSocketMessage].
  rewrite handleSlideChange_run. cbn. split_and!; try done.
  intros c Hok [sess Hget]. apply get_Some_elem in Hget.
  unfold to_all, live. apply list_elem_of_fmap. exists (c, sess).
  split; [done|]. apply list_elem_of_filter. done.
Qed.

(** C3, as stated, fails: the session allows two symbols; a reaction
    frame with a third one completes normally, opens a new tally entry
    with count 1 and is broadcast. *)
Lemma C3_unknown_symbol_counterexample :
  let r := handleWebSocketMessage all_up 20 1%nat (MReaction "skull" 1) joined in
  sessionData joined !! "allowedReactions" = Some "thumb,fire"
  ∧ reactions joined !! "1-skull" = None
  ∧ completion r = Normal tt
  ∧ reactions (final r) !! "1-skull" = Some 1
  ∧ sent r = [(1%nat, OReaction "skull" 1 1)].
Proof. vm_compute. repeat split; reflexivity. Qed.

(** C3, amended. The allowed reaction set is not consulted: a reaction
    frame with any symbol completes normally, sets the tally entry of its
    key to the previous count (0 when there is none) plus one, checkpoints
    the tally, and broadcasts the reaction with that count to every live
    connection. *)
Theorem C3_reaction_unchecked :
  ∀ (ok : WebSocket → bool) (now : Z) (ws : WebSocket) (emoji : string)
    (slide : Z) (st : DO),
    let r := handleWebSocketMessage ok now ws (MReaction emoji slide) st in
    let key := reactionKey slide emoji in
    let n := or_zero (reactions st !! key) + 1 in
    completion r = Normal tt
    ∧ reactions (final r) = <[key := n]> (reactions st)
    ∧ reactions (final r) !! key = Some n
    ∧ stored_reactions (storage (final r)) = Some (reactions (final r))
    ∧ sessionData (final r) = sessionData st
    ∧ sent r = to_all (live ok (sessions st)) (OReaction emoji slide n).
Proof.
  intros ok now ws emoji slide st. cbn [handleWebSocketMessage].
  rewrite handleReaction_run. cbn. split_and!; try done.
  apply lookup_insert_eq.
Qed.

(** ** Questions *)

Lemma elem_to_all (s : list (WebSocket * Session)) (m m' : OutMsg) ws :
  (ws, m') ∈ to_all s m ↔ m' = m ∧ ws ∈ JSMap.keys s.
Proof.
  unfold to_all, JSMap.keys. rewrite !list_elem_of_fmap. split.
  - intros [e [[= -> ->] He]]. split; [done|]. by exists e.
  - intros [-> [e [-> He]]]. by exists e.
Qed.

Lemma keys_get (s : list (WebSocket * Session)) ws :
  ws ∈ JSMap.keys s ↔ is_Some (JSMap.get ws s).
Proof.
  rewrite <- not_eq_None_Some, get_None_keys.
  destruct (decide (ws ∈ JSMap.keys s)); tauto.
Qed.

Lemma keys_live_presenters ok (s : list (WebSocket * Session)) ws :
  JSMap.wf s →
  ws ∈ JSMap.keys (live_presenters ok s)
  ↔ ok ws = true
    ∧ ∃ sess, JSMap.get ws s = Some sess ∧ role sess = "presenter".
Proof.
  intros Hwf. unfold JSMap.keys, live_presenters.
  rewrite list_elem_of_fmap. split.
  - intros [[k sess] [-> He]]. apply list_elem_of_filter in He as [[Hr Hok] He].
    cbn in *. split; [done|]. exists sess. split; [|done].
    by apply elem_get_Some.
  - intros [Hok [sess [Hget Hr]]]. exists (ws, sess). split; [done|].
    apply list_elem_of_filter. split; [done|]. by apply get_Some_elem.
Qed.

(** The question frame of a socket. In a registry where each socket is
    registered once (as in every reachable state), the frames sent for a
    question frame are exactly one question message, carrying the text,
    the slide and the token of the frame, to each live connection
    registered with role presenter; a connection registered with any
    other role receives nothing. *)
Lemma question_frame_to_presenters_only :
  ∀ (ok : WebSocket → bool) (now : Z) (from : WebSocket) (text : string)
    (slide : Z) (tok : option string) (st : DO),
    JSMap.wf (sessions st) →
    let r := handleWebSocketMessage ok now from (MQuestion text slide tok) st in
    (∀ ws m,
       (ws, m) ∈ sent r
       ↔ m = OQuestion text slide tok
         ∧ ok ws = true
         ∧ ∃ sess, JSMap.get ws (sessions st) = Some sess
                   ∧ role sess = "presenter")
    ∧ (∀ ws sess m,
         JSMap.get ws (sessions st) = Some sess →
         role sess ≠ "presenter" → (ws, m) ∉ sent r).
Proof.
  intros ok now from text slide tok st Hwf. cbn [handleWebSocketMessage].
  rewrite handleQuestion_run. cbn [sent].
  assert (∀ ws m,
    (ws, m) ∈ to_all (live_presenters ok (sessions st)) (OQuestion text slide tok)
    ↔ m = OQuestion text slide tok ∧ ok ws = true
      ∧ ∃ sess, JSMap.get ws (sessions st) = Some sess
                ∧ role sess = "presenter") as Hiff.
  { intros ws m. by rewrite elem_to_all, keys_live_presenters. }
  split; [exact Hiff|].
  intros ws sess m Hget Hrole Hin.
  apply Hiff in Hin as (_ & _ & sess' & Hget' & Hrole'). congruence.
Qed.

Lemma wf_room : JSMap.wf (sessions room).
Proof. apply reachable_wf. unfold room. apply reach_step, reachable_joined. Qed.

Example question_example :
  sent (handleWebSocketMessage all_up 30 1%nat
          (MQuestion "why" 2 (Some "tokenA")) room)
  = [(2%nat, OQuestion "why" 2 (Some "tokenA"))].
Proof. vm_compute. reflexivity. Qed.

(** C5, the failing case. The room holds an audience connection (socket
    1, token [tokenA]) and a presenter (socket 2). The question "why" on
    slide 2 of [tokenA], submitted over HTTP, arrives at [/notify] as the
    body that [submitFeedback] posts; the endpoint answers 200 and the
    body, with the text and the submitting token, is handed to the
    audience connection as well as to the presenter. The same question
    sent as a question frame reaches the presenter only. *)
Lemma C5_relayed_question_reaches_audience :
  let body := NFeedback "question" 2 "why" "tokenA" in
  let r := fetch all_up [] (mkRequest None "/notify" None (Some body)) room in
  let q := handleWebSocketMessage all_up 30 1%nat
             (MQuestion "why" 2 (Some "tokenA")) room in
  JSMap.get 1%nat (sessions room) = Some (mkSession "audience" "tokenA")
  ∧ JSMap.get 2%nat (sessions room) = Some (mkSession "presenter" "tokenP")
  ∧ completion r = Normal (mkResponse 200 PSuccess)
  ∧ sent r = [(1%nat, ONotify body); (2%nat, ONotify body)]
  ∧ sent q = [(2%nat, OQuestion "why" 2 (Some "tokenA"))].
Proof. vm_compute. repeat split; reflexivity. Qed.

(** ** The participant set *)

Lemma join_token_nonempty now tok : join_token now tok ≠ EmptyString.
Proof.
  unfold join_token, truthy.
  destruct tok as [s|]; [|done]. cbn.
  destruct (String.eqb_spec s EmptyString) as [->|Hne]; done.
Qed.

Lemma tokens_nonempty_set s ws sess :
  sessionToken sess ≠ EmptyString →
  tokens_nonempty s → tokens_nonempty (JSMap.set ws sess s).
Proof.
  intros Hne. unfold tokens_nonempty.
  induction s as [|[k v] s IH]; cbn; intros Hs.
  - by constructor.
  - apply Forall_cons in Hs as [Hv Hs].
    destruct (decide (ws = k)); constructor; auto.
Qed.

Lemma tokens_nonempty_filter (P : WebSocket * Session → Prop)
    `{∀ x, Decision (P x)} s :
  tokens_nonempty s → tokens_nonempty (filter P s).
Proof.
  unfold tokens_nonempty. rewrite !Forall_forall.
  intros Hs e He. apply list_elem_of_filter in He as [_ He]. by apply Hs.
Qed.

Lemma handle_tokens_nonempty ok ev st :
  tokens_nonempty (sessions st) →
  tokens_nonempty (sessions (final (handle ok ev st))).
Proof.
  intros Hs. rewrite handle_sessions.
  destruct ev as [now ws [r tok| | | | | |]|ws|[data|]|body];
    cbn; try done; try (by apply tokens_nonempty_filter).
  - destruct (ok ws); [apply tokens_nonempty_filter|];
      by apply tokens_nonempty_set; [apply join_token_nonempty|].
  - by apply tokens_nonempty_filter, tokens_nonempty_filter.
Qed.

Lemma reachable_tokens_nonempty st ws sess :
  reachable st → JSMap.get ws (sessions st) = Some sess →
  sessionToken sess ≠ EmptyString.
Proof.
  intros Hr Hget.
  assert (tokens_nonempty (sessions st)) as Hall.
  { clear Hget. induction Hr as [stored|ok ev st _ IH].
    - apply Forall_nil_2.
    - by apply handle_tokens_nonempty. }
  apply get_Some_elem in Hget.
  unfold tokens_nonempty in Hall. rewrite Forall_forall in Hall.
  exact (Hall _ Hget).
Qed.

(** C6, as stated, fails: token [tokenA] has two live connections, 1 and
    2; when connection 1 closes, the token leaves the participant set
    although connection 2 is still registered with it, and the count
    broadcast to connection 2 is 0. *)
Lemma C6_second_connection_counterexample :
  let r := onClose all_up 1%nat two_tabs in
  JSMap.get 1%nat (sessions two_tabs) = Some (mkSession "audience" "tokenA")
  ∧ JSMap.get 2%nat (sessions two_tabs) = Some (mkSession "audience" "tokenA")
  ∧ elements (participants two_tabs) = ["tokenA"]
  ∧ JSMap.get 2%nat (sessions (final r)) = Some (mkSession "audience" "tokenA")
  ∧ elements (participants (final r)) = []
  ∧ sent r = [(2%nat, OParticipants 0)].
Proof. vm_compute. repeat split; reflexivity. Qed.

(** C6, amended. In a reachable state, when a connection closes that is
    registered with a participant token (a token that does not have the
    shape of the generated tokens of anonymous connections), its token is
    removed from the participant set whether or not another connection
    is registered with the same token; the connection leaves the
    registry and every remaining live connection is sent the size of the
    participant set after the removal. *)
Theorem C6_close_removes_token :
  ∀ (ok : WebSocket → bool) (ws : WebSocket) (sess : Session) (st : DO),
    reachable st →
    JSMap.get ws (sessions st) = Some sess →
    ¬ generated_token (sessionToken sess) →
    let r := onClose ok ws st in
    let p' := (participants st ∖ {[sessionToken sess]}) in
    completion r = Normal tt
    ∧ participants (final r) = p'
    ∧ (sessionToken sess ∉ participants (final r))
    ∧ JSMap.get ws (sessions (final r)) = None
    ∧ sessions (final r) = live ok (JSMap.delete ws (sessions st))
    ∧ sent r
      = to_all (live ok (JSMap.delete ws (sessions st)))
          (OParticipants (size p')).
Proof.
  intros ok ws sess st Hr Hget _.
  pose proof (reachable_tokens_nonempty st ws sess Hr Hget) as Hne.
  cbn zeta. rewrite onClose_run. cbn.
  assert (close_participants ws st = participants st ∖ {[sessionToken sess]})
    as ->.
  { unfold close_participants. rewrite Hget.
    by destruct (String.eqb_spec (sessionToken sess) EmptyString). }
  split_and!; try done.
  - rewrite elem_of_difference, elem_of_singleton. tauto.
  - unfold live.
    etrans; [exact (get_filter_key (λ k, ok k = true) _ ws)|].
    rewrite get_delete. rewrite (decide_True (P := ws = ws)) by done.
    by case_decide.
Qed.

Lemma reachable_two_tabs : reachable two_tabs.
Proof. unfold two_tabs. apply reach_step, reachable_joined. Qed.

(** The theorem at work on the two connections of [tokenA]. *)
Lemma C6_close_witness :
  let r := onClose all_up 1%nat two_tabs in
  let sess := mkSession "audience" "tokenA" in
  let p' := (participants two_tabs ∖ {[sessionToken sess]}) in
  completion r = Normal tt
  ∧ participants (final r) = p'
  ∧ (sessionToken sess ∉ participants (final r))
  ∧ JSMap.get 1%nat (sessions (final r)) = None
  ∧ sessions (final r) = live all_up (JSMap.delete 1%nat (sessions two_tabs))
  ∧ sent r
    = to_all (live all_up (JSMap.delete 1%nat (sessions two_tabs)))
        (OParticipants (size p')).
Proof.
  apply (C6_close_removes_token all_up 1%nat (mkSession "audience" "tokenA")
           two_tabs).
  - exact reachable_two_tabs.
  - vm_compute. reflexivity.
  - intros [now Hnow]. cbv [String.append sessionToken] in Hnow.
    discriminate Hnow.
Defined.

(** ** Broadcast under send failures *)

Lemma get_live ok (s : list (WebSocket * Session)) ws :
  JSMap.get ws (live ok s) = if ok ws then JSMap.get ws s else None.
Proof.
  unfold live. etrans; [exact (get_filter_key (λ k, ok k = true) s ws)|].
  cbn beta. destruct (ok ws).
  - by rewrite (decide_True (P := true = true)).
  - by rewrite (decide_False (P := false = true)).
Qed.

Lemma elem_dead_presenters ok (s : list (WebSocket * Session)) ws :
  JSMap.wf s →
  ws ∈ dead_presenters ok s
  ↔ ok ws = false
    ∧ ∃ sess, JSMap.get ws s = Some sess ∧ role sess = "presenter".
Proof.
  intros Hwf. unfold dead_presenters. rewrite list_elem_of_fmap. split.
  - intros [[k sess] [-> He]]. apply list_elem_of_filter in He as [[Hr Hok] He].
    cbn in *. split; [by destruct (ok k)|].
    exists sess. split; [by apply elem_get_Some|done].
  - intros [Hok [sess [Hget Hr]]]. exists (ws, sess). split; [done|].
    apply list_elem_of_filter. split; [|by apply get_Some_elem].
    cbn. split; [done|]. by rewrite Hok.
Qed.

(** C8. In a registry where each socket is registered once: a broadcast
    completes normally whatever sends fail; a registered connection whose
    send succeeds gets the message and stays registered, one whose send
    fails is removed from the registry; the same holds for the broadcast
    to presenters among the connections of role presenter, the others
    staying untouched; and a reaction frame completes normally and is
    tallied whichever sends fail. *)
Theorem C8_broadcast_tolerates_failures :
  ∀ (ok : WebSocket → bool) (message : OutMsg) (st : DO),
    JSMap.wf (sessions st) →
    let b := broadcast ok message st in
    let bp := broadcastToPresenters ok message st in
    completion b = Normal tt
    ∧ completion bp = Normal tt
    ∧ (∀ ws sess, JSMap.get ws (sessions st) = Some sess →
         if ok ws
         then ((ws, message) ∈ sent b)
              ∧ JSMap.get ws (sessions (final b)) = Some sess
         else ((ws, message) ∉ sent b)
              ∧ JSMap.get ws (sessions (final b)) = None)
    ∧ (∀ ws sess, JSMap.get ws (sessions st) = Some sess →
         if String.eqb (role sess) "presenter" then
           if ok ws
           then ((ws, message) ∈ sent bp)
                ∧ JSMap.get ws (sessions (final bp)) = Some sess
           else ((ws, message) ∉ sent bp)
                ∧ JSMap.get ws (sessions (final bp)) = None
         else ((ws, message) ∉ sent bp)
              ∧ JSMap.get ws (sessions (final bp)) = Some sess)
    ∧ (∀ emoji slide,
         let r := handleReaction ok emoji slide st in
         completion r = Normal tt
         ∧ reactions (final r) !! reactionKey slide emoji
           = Some (or_zero (reactions st !! reactionKey slide emoji) + 1)).
Proof.
  intros ok message st Hwf. cbn zeta.
  rewrite broadcast_run, broadcastToPresenters_run.
  cbn [completion final sent with_sessions sessions].
  split_and!; try done.
  - intros ws sess Hget. rewrite get_live.
    assert (ws ∈ JSMap.keys (live ok (sessions st)) ↔ ok ws = true) as Hk.
    { rewrite keys_get, get_live, Hget. destruct (ok ws); [by eauto|].
      split; [intros [? ?]; done|done]. }
    destruct (ok ws) eqn:Hok.
    + split; [|done]. apply elem_to_all. split; [done|by apply Hk].
    + split; [|done]. intros Hin. apply elem_to_all in Hin as [_ Hin].
      by apply Hk in Hin.
  - intros ws sess Hget.
    pose proof (get_filter_key (λ k, k ∉ dead_presenters ok (sessions st))
                  (sessions st) ws) as Hf. cbn beta in Hf. rewrite Hf. clear Hf.
    pose proof (elem_dead_presenters ok (sessions st) ws Hwf) as Hd.
    pose proof (keys_live_presenters ok (sessions st) ws Hwf) as Hl.
    destruct (String.eqb_spec (role sess) "presenter") as [Hr|Hr].
    + destruct (ok ws) eqn:Hok.
      * split; [apply elem_to_all; split; [done|]; apply Hl; by eauto|].
        rewrite decide_True; [done|]. intros Hc. apply Hd in Hc as [? _]. done.
      * split.
        -- intros Hin. apply elem_to_all in Hin as [_ Hin].
           apply Hl in Hin as [? _]. done.
        -- rewrite decide_False; [done|]. intros Hn. apply Hn, Hd. by eauto.
    + split.
      * intros Hin. apply elem_to_all in Hin as [_ Hin].
        apply Hl in Hin as (_ & sess' & Hget' & Hr'). congruence.
      * rewrite decide_True; [done|]. intros Hc.
        apply Hd in Hc as (_ & sess' & Hget' & Hr'). congruence.
  - intros emoji slide. rewrite handleReaction_run. cbn.
    split; [done|]. apply lookup_insert_eq.
Qed.

(** With socket 1 broken, a broadcast in the room still reaches the
    presenter on socket 2 and drops socket 1 from the registry. *)
Lemma C8_broadcast_witness :
  let b := broadcast one_down OPong room in
  let bp := broadcastToPresenters one_down OPong room in
  completion b = Normal tt
  ∧ completion bp = Normal tt
  ∧ (∀ ws sess, JSMap.get ws (sessions room) = Some sess →
       if one_down ws
       then ((ws, OPong) ∈ sent b)
            ∧ JSMap.get ws (sessions (final b)) = Some sess
       else ((ws, OPong) ∉ sent b)
            ∧ JSMap.get ws (sessions (final b)) = None)
  ∧ (∀ ws sess, JSMap.get ws (sessions room) = Some sess →
       if String.eqb (role sess) "presenter" then
         if one_down ws
         then ((ws, OPong) ∈ sent bp)
              ∧ JSMap.get ws (sessions (final bp)) = Some sess
         else ((ws, OPong) ∉ sent bp)
              ∧ JSMap.get ws (sessions (final bp)) = None
       else ((ws, OPong) ∉ sent bp)
            ∧ JSMap.get ws (sessions (final bp)) = Some sess)
  ∧ (∀ emoji slide,
       let r := handleReaction one_down emoji slide room in
       completion r = Normal tt
       ∧ reactions (final r) !! reactionKey slide emoji
         = Some (or_zero (reactions room !! reactionKey slide emoji) + 1)).
Proof. exact (C8_broadcast_tolerates_failures one_down OPong room wf_room). Defined.

Example broadcast_example :
  let b := broadcast one_down OPong room in
  sessions room
  = [(1%nat, mkSession "audience" "tokenA");
     (2%nat, mkSession "presenter" "tokenP")]
  ∧ sent b = [(2%nat, OPong)]
  ∧ sessions (final b) = [(2%nat, mkSession "presenter" "tokenP")]
  ∧ completion (handleReaction one_down "thumb" 1 room) = Normal tt
  ∧ sent (handleReaction one_down "thumb" 1 room)
    = [(2%nat, OReaction "thumb" 1 1)].
Proof. vm_compute. repeat split; reflexivity. Qed.

(** ** Closing a session *)

(** C7, the failing case. The session [s1] has one audience connection,
    socket 1. Closing the session marks its directory row inactive and
    sends socket 1 a [close] notice, but socket 1 is not disconnected:
    it stays registered, and the reaction frame it sends afterwards does
    not fail: it completes normally, is tallied and is broadcast. *)
Lemma C7_close_keeps_connections :
  let c := closeSession all_up None true 99 "s1" (Some "do1") live_system in
  let r := handleWebSocketMessage all_up 100 1%nat (MReaction "thumb" 1)
             (dobj (http_final c)) in
  JSMap.get 1%nat (sessions (dobj live_system))
  = Some (mkSession "audience" "tokenA")
  ∧ http_completion c = Normal true
  ∧ slidev_sessions (http_final c) !! "s1" = Some (mkRow false (Some 99))
  ∧ http_sent c = [(1%nat, ONotify NClose)]
  ∧ JSMap.get 1%nat (sessions (dobj (http_final c)))
    = Some (mkSession "audience" "tokenA")
  ∧ completion r = Normal tt
  ∧ reactions (final r) !! "1-thumb" = Some 1
  ∧ sent r = [(1%nat, OReaction "thumb" 1 1)].
Proof. vm_compute. repeat split; reflexivity. Qed.

(** What [closeSession] does. When the directory update succeeds the
    call completes with success and the row of the session is marked
    inactive with its closing time, the other rows staying as they are;
    when moreover a Durable Object id is given and the notification
    arrives, every live connection is sent a [close] notice, and the
    object is changed only in that the connections whose send failed
    leave the registry; otherwise the object is untouched and nothing is
    sent. When the directory update fails, the call throws and nothing
    changes. *)
Lemma closeSession_effects (ok : WebSocket → bool) (fetchOk : bool) (now : Z)
    (sessionId : string) (durableObjectId : option string) (sys : System) :
  let c := closeSession ok None fetchOk now sessionId durableObjectId sys in
  let notified := truthy durableObjectId && fetchOk in
  http_completion c = Normal true
  ∧ slidev_sessions (http_final c)
    = alter (λ _, mkRow false (Some now)) sessionId (slidev_sessions sys)
  ∧ http_sent c
    = (if notified
       then to_all (live ok (sessions (dobj sys))) (ONotify NClose)
       else [])
  ∧ dobj (http_final c)
    = (if notified then with_sessions (live ok) (dobj sys) else dobj sys)
  ∧ (∀ msg,
       closeSession ok (Some msg) fetchOk now sessionId durableObjectId sys
       = mkHttp (Throw (DbError ("Failed to close session: " ++ msg))) sys []).
Proof.
  cbn zeta. unfold closeSession, notifyDurableObject.
  destruct (truthy durableObjectId), fetchOk;
    cbn [andb dobj slidev_sessions]; rewrite ?handleNotify_run;
    cbn [http_completion http_final http_sent final sent dobj
         slidev_sessions];
    by split_and!.
Qed.

(** ** Anonymous connections *)

(** A join frame without a token: the connection is registered under the
    generated token, the participant set is untouched, and a live socket
    gets the init snapshot followed by the participant count, both
    counting only the tokens that were given. *)
Lemma anonymous_join ok now ws r st :
  let run := handleWebSocketMessage ok now ws (MJoin r None) st in
  let s' := JSMap.set ws (mkSession r ("anon-" ++ Number_toString now))
              (sessions st) in
  participants (final run) = participants st
  ∧ JSMap.get ws (sessions (final run))
    = Some (mkSession r ("anon-" ++ Number_toString now))
  ∧ (ok ws = true →
     sent run
     = (ws, OInit (currentSlide st) (reactions st) (size (participants st)))
       :: to_all (live ok s') (OParticipants (size (participants st)))).
Proof.
  cbn zeta. rewrite join_run. cbn.
  destruct (ok ws) eqn:Hok; cbn; split_and!; try done.
  - rewrite get_live, Hok, get_set. by rewrite decide_True.
  - rewrite get_set. by rewrite decide_True.
Qed.

(** Closing a connection whose registered token is not in the
    participant set leaves the set as it was. *)
Lemma close_absent_token ok ws sess st :
  JSMap.get ws (sessions st) = Some sess →
  sessionToken sess ∉ participants st →
  participants (final (onClose ok ws st)) = participants st.
Proof.
  intros Hget Hnot. rewrite onClose_run. cbn.
  unfold close_participants. rewrite Hget.
  destruct (negb (String.eqb (sessionToken sess) EmptyString)); [|done].
  apply difference_disjoint_L, disjoint_singleton_r, Hnot.
Qed.

(** C10, the failing case. Socket 1 joined with the token
    [anon-1700000000000]; socket 2 joins without a token at time
    1700000000000 and is registered under the same string. The join
    leaves the participant set alone, but when socket 2 closes, the
    token of socket 1 is deleted from the set although socket 1 is still
    connected, and socket 1 is told that there are 0 participants. *)
Lemma C10_anonymous_close_collision :
  let r := onClose all_up 2%nat with_anonymous in
  elements (participants named_anon) = ["anon-1700000000000"]
  ∧ JSMap.get 2%nat (sessions with_anonymous)
    = Some (mkSession "audience" "anon-1700000000000")
  ∧ elements (participants with_anonymous) = ["anon-1700000000000"]
  ∧ JSMap.get 1%nat (sessions (final r))
    = Some (mkSession "audience" "anon-1700000000000")
  ∧ elements (participants (final r)) = []
  ∧ sent r = [(1%nat, OParticipants 0)].
Proof. vm_compute. repeat split; reflexivity. Qed.

(** * Further properties *)

(** ** Which event writes which field *)

Section fields.
Variable sendOk : WebSocket → bool.
Implicit Types (st : DO) (ev : Event).

Lemma handle_currentSlide ev st :
  currentSlide (final (handle sendOk ev st))
  = default (currentSlide st) (slide_request ev).
Proof.
  destruct ev as [now ws message|ws|body|body].
  - cbn [handle]. rewrite onMessage_run. cbn.
    destruct message; [|cbn [handleWebSocketMessage]..].
    + rewrite join_run. cbn. by destruct (sendOk ws).
    + by rewrite handleReaction_run.
    + by rewrite handleQuestion_run.
    + by rewrite handleSlideChange_run.
    + by rewrite handleUpdate_run.
    + unfold ws_send. by destruct (sendOk ws).
    + done.
  - cbn [handle]. by rewrite onClose_run.
  - rewrite handle_notify_run. by destruct body.
  - rewrite handle_init_run, handleInit_run. by destruct body.
Qed.

Lemma handle_participants ev st :
  participants (final (handle sendOk ev st))
  = match ev with
    | EMessage _ _ (MJoin _ tok) => join_participants tok (participants st)
    | EClose ws => close_participants ws st
    | _ => participants st
    end.
Proof.
  destruct ev as [now ws message|ws|body|body].
  - cbn [handle]. rewrite onMessage_run. cbn.
    destruct message; [|cbn [handleWebSocketMessage]..].
    + rewrite join_run. cbn. by destruct (sendOk ws).
    + by rewrite handleReaction_run.
    + by rewrite handleQuestion_run.
    + by rewrite handleSlideChange_run.
    + by rewrite handleUpdate_run.
    + unfold ws_send. by destruct (sendOk ws).
    + done.
  - cbn [handle]. by rewrite onClose_run.
  - rewrite handle_notify_run. by destruct body.
  - rewrite handle_init_run, handleInit_run. by destruct body.
Qed.

Lemma handle_sessionData ev st :
  sessionData (final (handle sendOk ev st))
  = match ev with
    | EMessage _ _ (MUpdate data) => data ∪ sessionData st
    | EInit (Some data) => data
    | _ => sessionData st
    end.
Proof.
  destruct ev as [now ws message|ws|body|body].
  - cbn [handle]. rewrite onMessage_run. cbn.
    destruct message; [|cbn [handleWebSocketMessage]..].
    + rewrite join_run. cbn. by destruct (sendOk ws).
    + by rewrite handleReaction_run.
    + by rewrite handleQuestion_run.
    + by rewrite handleSlideChange_run.
    + by rewrite handleUpdate_run.
    + unfold ws_send. by destruct (sendOk ws).
    + done.
  - cbn [handle]. by rewrite onClose_run.
  - rewrite handle_notify_run. by destruct body.
  - rewrite handle_init_run, handleInit_run. by destruct body.
Qed.

(** The checkpoint after one event. *)
Lemma handle_storage ev st :
  storage (final (handle sendOk ev st))
  = let s := storage st in
    match ev with
    | EMessage _ _ (MReaction emoji slide) =>
        mkStorage (stored_currentSlide s)
          (Some (reactions (final (handle sendOk ev st))))
          (stored_sessionData s)
    | EMessage _ _ (MSlideChange slide) =>
        mkStorage (Some slide) (stored_reactions s) (stored_sessionData s)
    | EMessage _ _ (MUpdate data) =>
        mkStorage (stored_currentSlide s) (stored_reactions s)
          (Some (data ∪ sessionData st))
    | EInit (Some data) =>
        mkStorage (stored_currentSlide s) (stored_reactions s) (Some data)
    | _ => s
    end.
Proof.
  destruct ev as [now ws message|ws|body|body].
  - cbn [handle]. rewrite onMessage_run. cbn.
    destruct message; [|cbn [handleWebSocketMessage]..].
    + rewrite join_run. cbn. by destruct (sendOk ws).
    + by rewrite handleReaction_run.
    + by rewrite handleQuestion_run.
    + by rewrite handleSlideChange_run.
    + by rewrite handleUpdate_run.
    + unfold ws_send. by destruct (sendOk ws).
    + done.
  - cbn [handle]. by rewrite onClose_run.
  - rewrite handle_notify_run. by destruct body.
  - rewrite handle_init_run, handleInit_run. by destruct body.
Qed.

(** The frames of one event. *)
Lemma handle_sent ev st :
  sent (handle sendOk ev st)
  = let s := sessions st in
    match ev with
    | EMessage now ws (MJoin r tok) =>
        let s' := JSMap.set ws (mkSession r (join_token now tok)) s in
        let n := size (join_participants tok (participants st)) in
        if sendOk ws
        then (ws, OInit (currentSlide st) (reactions st) n)
             :: to_all (live sendOk s') (OParticipants n)
        else []
    | EMessage _ _ (MReaction emoji slide) =>
        to_all (live sendOk s)
          (OReaction emoji slide
             (or_zero (reactions st !! reactionKey slide emoji) + 1))
    | EMessage _ _ (MQuestion text slide tok) =>
        to_all (live_presenters sendOk s) (OQuestion text slide tok)
    | EMessage _ _ (MSlideChange slide) =>
        to_all (live sendOk s) (OSlideChange slide)
    | EMessage _ _ (MUpdate data) => to_all (live sendOk s) (OUpdate data)
    | EMessage _ ws MPing => if sendOk ws then [(ws, OPong)] else []
    | EMessage _ _ (MOther _) => []
    | EClose ws =>
        to_all (live sendOk (JSMap.delete ws s))
          (OParticipants (size (close_participants ws st)))
    | ENotify (Some data) => to_all (live sendOk s) (ONotify data)
    | ENotify None | EInit _ => []
    end.
Proof.
  destruct ev as [now ws message|ws|body|body].
  - cbn [handle]. rewrite onMessage_run. cbn.
    destruct message; [|cbn [handleWebSocketMessage]..].
    + rewrite join_run. cbn. by destruct (sendOk ws).
    + by rewrite handleReaction_run.
    + by rewrite handleQuestion_run.
    + by rewrite handleSlideChange_run.
    + by rewrite handleUpdate_run.
    + unfold ws_send. by destruct (sendOk ws).
    + done.
  - cbn [handle]. by rewrite onClose_run.
  - rewrite handle_notify_run. by destruct body.
  - rewrite handle_init_run. done.
Qed.
End fields.

(** X4. The cursor changes only on a slide-change frame, the participant
    set only on a join frame and on a close event, the session data only
    on an update frame and on [/init]; reactions, questions, pings,
    unknown frames and notifications, the close notice among them, leave
    all three as they were. *)
Theorem X_fields_written_by_event :
  ∀ (ok : WebSocket → bool) (ev : Event) (st : DO),
    let st' := final (handle ok ev st) in
    currentSlide st' = default (currentSlide st) (slide_request ev)
    ∧ participants st'
      = match ev with
        | EMessage _ _ (MJoin _ tok) => join_participants tok (participants st)
        | EClose ws => close_participants ws st
        | _ => participants st
        end
    ∧ sessionData st'
      = match ev with
        | EMessage _ _ (MUpdate data) => data ∪ sessionData st
        | EInit (Some data) => data
        | _ => sessionData st
        end.
Proof.
  intros ok ev st. cbn zeta.
  by rewrite handle_currentSlide, handle_participants, handle_sessionData.
Qed.

(** ** The cursor along a trace *)

Lemma run_events_cursor evs st :
  currentSlide (run_events evs st) = last_slide evs (currentSlide st).
Proof.
  revert st. induction evs as [|[ok ev] evs IH]; intros st; [done|].
  cbn [run_events last_slide]. by rewrite IH, handle_currentSlide.
Qed.

(** X3. After any trace the cursor is the slide of the most recent
    slide-change frame (the initial cursor if there was none), and a
    connection that then joins on a working socket is first sent an init
    frame with that cursor, the whole tally and the participant count
    that includes its own token. *)
Theorem X_join_reports_latest_slide :
  ∀ (evs : list ((WebSocket → bool) * Event)) (st : DO)
    (ok : WebSocket → bool) (now : Z) (ws : WebSocket) (r : string)
    (tok : option string),
    ok ws = true →
    let st' := run_events evs st in
    currentSlide st' = last_slide evs (currentSlide st)
    ∧ head (sent (handleWebSocketMessage ok now ws (MJoin r tok) st'))
      = Some (ws, OInit (last_slide evs (currentSlide st)) (reactions st')
                    (size (join_participants tok (participants st')))).
Proof.
  intros evs st ok now ws r tok Hok. cbn zeta.
  split; [apply run_events_cursor|].
  rewrite join_run. cbn zeta. rewrite Hok. cbn.
  by rewrite run_events_cursor.
Qed.

(** Two slide changes, a reaction, then a join: the init frame carries
    slide 3 and the tally. *)
Lemma X_join_reports_latest_slide_witness :
  let evs :=
    [ (all_up, EMessage 20 1%nat (MSlideChange 2));
      (all_up, EMessage 21 1%nat (MReaction "thumb" 2));
      (all_up, EMessage 22 1%nat (MSlideChange 3)) ] in
  let st' := run_events evs joined in
  currentSlide st' = last_slide evs (currentSlide joined)
  ∧ head (sent (handleWebSocketMessage all_up 30 2%nat
                  (MJoin "audience" (Some "tokenB")) st'))
    = Some (2%nat,
            OInit (last_slide evs (currentSlide joined)) (reactions st')
              (size (join_participants (Some "tokenB") (participants st')))).
Proof.
  apply (X_join_reports_latest_slide
           [ (all_up, EMessage 20 1%nat (MSlideChange 2));
             (all_up, EMessage 21 1%nat (MReaction "thumb" 2));
             (all_up, EMessage 22 1%nat (MSlideChange 3)) ]
           joined all_up 30 2%nat "audience" (Some "tokenB")).
  reflexivity.
Defined.

(** ** Checkpoint and restart *)

(** The checkpoint holds the tally and the session data of the state,
    and its cursor unless no slide change was checkpointed yet. *)
Lemma reachable_checkpointed st :
  reachable st →
  reactions st = default ∅ (stored_reactions (storage st))
  ∧ sessionData st = default ∅ (stored_sessionData (storage st))
  ∧ (stored_currentSlide (storage st) = Some (currentSlide st)
     ∨ currentSlide st = currentSlide (construct (storage st))).
Proof.
  induction 1 as [stored|ok ev st _ (Hr & Hd & Hc)].
  - split_and!; [done|done|by right].
  - rewrite handle_storage, handle_sessionData, handle_currentSlide.
    pose proof (handle_reactions ok ev st) as Hre.
    destruct ev as [now ws [r tok|e s|t s tok|s|d| |ty]|ws|[data|]|[data|]];
      cbn [slide_request default] in *; rewrite ?Hre; cbn;
      split_and!; try done; try (by left).
    all: destruct Hc as [Hc|Hc]; [by left|right]; exact Hc.
Qed.

Lemma construct_cursor_nonzero stored : currentSlide (construct stored) ≠ 0.
Proof.
  cbn. destruct (stored_currentSlide stored) as [n|]; [|done].
  by destruct (Z.eqb_spec n 0).
Qed.

(** X2. Restarting the object on the checkpoint of a reachable state
    restores the tally and the session data exactly, and the cursor
    except that a cursor of 0 comes back as 1; the registry and the
    participant set come back empty. *)
Theorem X_restart_restores_checkpoint :
  ∀ st : DO,
    reachable st →
    let st' := construct (storage st) in
    reactions st' = reactions st
    ∧ sessionData st' = sessionData st
    ∧ currentSlide st' = restored_cursor (currentSlide st)
    ∧ sessions st' = []
    ∧ participants st' = ∅
    ∧ storage st' = storage st.
Proof.
  intros st Hr. cbn zeta.
  destruct (reachable_checkpointed st Hr) as (Hre & Hd & Hc).
  split_and!; try done.
  unfold restored_cursor. destruct Hc as [Hc|Hc].
  - cbn. by rewrite Hc.
  - rewrite <- Hc.
    destruct (Z.eqb_spec (currentSlide st) 0) as [H0|]; [|done].
    exfalso. rewrite Hc in H0. by apply construct_cursor_nonzero in H0.
Qed.

Lemma X_restart_restores_checkpoint_witness :
  let st := run_events
              [ (all_up, EMessage 20 1%nat (MReaction "thumb" 1));
                (all_up, EMessage 21 1%nat (MSlideChange 0)) ] joined in
  let st' := construct (storage st) in
  reactions st' = reactions st
  ∧ sessionData st' = sessionData st
  ∧ currentSlide st' = restored_cursor (currentSlide st)
  ∧ sessions st' = []
  ∧ participants st' = ∅
  ∧ storage st' = storage st.
Proof.
  apply (X_restart_restores_checkpoint
           (run_events
              [ (all_up, EMessage 20 1%nat (MReaction "thumb" 1));
                (all_up, EMessage 21 1%nat (MSlideChange 0)) ] joined)).
  cbn [run_events]. do 2 apply reach_step. exact reachable_joined.
Defined.

Example restart_example :
  let st := run_events
              [ (all_up, EMessage 20 1%nat (MReaction "thumb" 1));
                (all_up, EMessage 21 1%nat (MSlideChange 0)) ] joined in
  currentSlide st = 0
  ∧ currentSlide (construct (storage st)) = 1
  ∧ reactions (construct (storage st)) !! "1-thumb" = Some 1.
Proof. vm_compute. repeat split; reflexivity. Qed.

(** ** What the frames say and whom they reach *)

Lemma elem_to_all_inv (s : list (WebSocket * Session)) (m m' : OutMsg) ws :
  (ws, m') ∈ to_all s m → m' = m ∧ ws ∈ JSMap.keys s.
Proof. apply elem_to_all. Qed.

Lemma keys_live ok (s : list (WebSocket * Session)) ws :
  ws ∈ JSMap.keys (live ok s) → ok ws = true ∧ ws ∈ JSMap.keys s.
Proof.
  unfold JSMap.keys, live. intros Hin.
  apply list_elem_of_fmap in Hin as [e [-> He]].
  apply list_elem_of_filter in He as [Hok He].
  split; [done|]. apply list_elem_of_fmap. by exists e.
Qed.

Lemma keys_live_presenters_sub ok (s : list (WebSocket * Session)) ws :
  ws ∈ JSMap.keys (live_presenters ok s) → ok ws = true ∧ ws ∈ JSMap.keys s.
Proof.
  unfold JSMap.keys, live_presenters. intros Hin.
  apply list_elem_of_fmap in Hin as [e [-> He]].
  apply list_elem_of_filter in He as [[_ Hok] He].
  split; [done|]. apply list_elem_of_fmap. by exists e.
Qed.

Lemma keys_delete_sub (s : list (WebSocket * Session)) ws k :
  ws ∈ JSMap.keys (JSMap.delete k s) → ws ∈ JSMap.keys s.
Proof.
  unfold JSMap.keys, JSMap.delete. intros Hin.
  apply list_elem_of_fmap in Hin as [e [-> He]].
  apply list_elem_of_filter in He as [_ He].
  apply list_elem_of_fmap. by exists e.
Qed.

Lemma keys_set_sub (s : list (WebSocket * Session)) ws k v :
  ws ∈ JSMap.keys (JSMap.set k v s) → ws = k ∨ ws ∈ JSMap.keys s.
Proof.
  rewrite keys_set. case_decide; [by right|].
  rewrite elem_of_app, list_elem_of_singleton. tauto.
Qed.

(** X5. Every frame that the object sends while it handles an event
    other than a post to [/notify] (a frame arriving on a socket, a
    socket closing, [/init]) is of the object's own making and describes
    the state after the event: an init frame carries its cursor, tally
    and participant count, a reaction frame the tally of its pair, a
    slide-change frame the cursor, a participants frame the size of the
    participant set, and an update frame fields that the session data
    now has. Bodies relayed from [/notify] are not covered: they are
    forwarded as posted. *)
Theorem X_frames_report_new_state :
  ∀ (ok : WebSocket → bool) (ev : Event) (st : DO) (ws : WebSocket)
    (m : OutMsg),
    is_notify ev = false →
    (ws, m) ∈ sent (handle ok ev st) →
    reports (final (handle ok ev st)) m.
Proof.
  intros ok ev st ws m Hev. rewrite handle_sent. unfold reports.
  pose proof (handle_currentSlide ok ev st) as Hc.
  pose proof (handle_participants ok ev st) as Hp.
  pose proof (handle_reactions ok ev st) as Hr.
  pose proof (handle_sessionData ok ev st) as Hd.
  destruct ev as [now c [r tok|e s|t s tok|s|d| |ty]|c|[data|]|body];
    try discriminate Hev;
    cbn [slide_request default] in *; cbn zeta.
  - destruct (ok c); [|by intros ?%elem_of_nil].
    intros [[= -> ->]|Hin]%elem_of_cons.
    + by rewrite Hc, Hp, Hr.
    + apply elem_to_all_inv in Hin as [-> _]. by rewrite Hp.
  - intros [-> _]%elem_to_all_inv. rewrite Hr. unfold count_of.
    by rewrite lookup_insert_eq, or_zero_succ.
  - by intros [-> _]%elem_to_all_inv.
  - by intros [-> _]%elem_to_all_inv.
  - intros [-> _]%elem_to_all_inv. rewrite Hd. apply map_union_subseteq_l.
  - destruct (ok c); [|by intros ?%elem_of_nil].
    by intros [= -> ->]%list_elem_of_singleton.
  - by intros ?%elem_of_nil.
  - intros [-> _]%elem_to_all_inv. by rewrite Hp.
  - by intros ?%elem_of_nil.
Qed.

Lemma X_frames_report_new_state_witness :
  reports (final (handle all_up (EMessage 30 1%nat (MReaction "thumb" 1)) room))
          (OReaction "thumb" 1 1).
Proof.
  apply (X_frames_report_new_state all_up
           (EMessage 30 1%nat (MReaction "thumb" 1)) room 2%nat
           (OReaction "thumb" 1 1)).
  - reflexivity.
  - vm_compute. right. left.
Defined.

(** X6. A frame is only ever handed to a socket whose send works and
    that is either registered before the event or the socket on which
    the event's own frame arrived; a socket that never joined receives
    nothing but the replies to its own join and ping frames. *)
Theorem X_frames_reach_registered_or_sender :
  ∀ (ok : WebSocket → bool) (ev : Event) (st : DO) (ws : WebSocket)
    (m : OutMsg),
    (ws, m) ∈ sent (handle ok ev st) →
    ok ws = true
    ∧ (is_Some (JSMap.get ws (sessions st))
       ∨ ∃ now message,
           ev = EMessage now ws message
           ∧ (message = MPing ∨ ∃ r tok, message = MJoin r tok)).
Proof.
  intros ok ev st ws m. rewrite handle_sent. rewrite <- keys_get.
  destruct ev as [now c [r tok|e s|t s tok|s|d| |ty]|c|[data|]|body];
    cbn zeta.
  - destruct (ok c) eqn:Hok; [|by intros ?%elem_of_nil].
    intros [[= -> ->]|Hin]%elem_of_cons.
    + split; [done|]. right. by eauto 7.
    + apply elem_to_all_inv in Hin as [_ Hin].
      apply keys_live in Hin as [Hw Hin]. split; [done|].
      apply keys_set_sub in Hin as [->|Hin]; [right; by eauto 7|by left].
  - intros [_ [? ?]%keys_live]%elem_to_all_inv. by auto.
  - intros [_ [? ?]%keys_live_presenters_sub]%elem_to_all_inv. by auto.
  - intros [_ [? ?]%keys_live]%elem_to_all_inv. by auto.
  - intros [_ [? ?]%keys_live]%elem_to_all_inv. by auto.
  - destruct (ok c) eqn:Hok; [|by intros ?%elem_of_nil].
    intros [= -> ->]%list_elem_of_singleton. split; [done|]. right. by eauto.
  - by intros ?%elem_of_nil.
  - intros [_ [? ?%keys_delete_sub]%keys_live]%elem_to_all_inv. by auto.
  - intros [_ [? ?]%keys_live]%elem_to_all_inv. by auto.
  - by intros ?%elem_of_nil.
  - by intros ?%elem_of_nil.
Qed.

Lemma X_frames_reach_registered_or_sender_witness :
  all_up 2%nat = true
  ∧ (is_Some (JSMap.get 2%nat (sessions room))
     ∨ ∃ now message,
         EMessage 30 1%nat (MReaction "thumb" 1) = EMessage now 2%nat message
         ∧ (message = MPing ∨ ∃ r tok, message = MJoin r tok)).
Proof.
  apply (X_frames_reach_registered_or_sender all_up
           (EMessage 30 1%nat (MReaction "thumb" 1)) room 2%nat
           (OReaction "thumb" 1 1)).
  vm_compute. right. left.
Defined.

Lemma NoDup_to_all (s : list (WebSocket * Session)) (m : OutMsg) :
  JSMap.wf s → NoDup (to_all s m).
Proof.
  unfold JSMap.wf, JSMap.keys, to_all. intros Hnd.
  apply (NoDup_fmap_1 fst). rewrite <- list_fmap_compose.
  by erewrite list_fmap_ext; [exact Hnd|].
Qed.

(** X7. In a registry where each socket is registered once, no event
    hands the same frame to the same socket twice. *)
Theorem X_no_duplicate_delivery :
  ∀ (ok : WebSocket → bool) (ev : Event) (st : DO),
    JSMap.wf (sessions st) → NoDup (sent (handle ok ev st)).
Proof.
  intros ok ev st Hwf. rewrite handle_sent.
  destruct ev as [now c [r tok|e s|t s tok|s|d| |ty]|c|[data|]|body];
    cbn zeta;
    try (apply NoDup_to_all; repeat apply wf_filter; by try apply wf_delete);
    try apply NoDup_nil_2.
  - destruct (ok c); [|apply NoDup_nil_2].
    apply NoDup_cons. split.
    + by intros [? _]%elem_to_all_inv.
    + apply NoDup_to_all, wf_filter. by apply wf_set.
  - destruct (ok c); [apply NoDup_singleton|apply NoDup_nil_2].
Qed.

Lemma X_no_duplicate_delivery_witness :
  NoDup (sent (handle all_up
                 (EMessage 30 3%nat (MJoin "audience" (Some "tokenC"))) room)).
Proof.
  apply (X_no_duplicate_delivery all_up
           (EMessage 30 3%nat (MJoin "audience" (Some "tokenC"))) room).
  exact wf_room.
Defined.

(** ** Joining *)

(** X8. A join frame that carries a non-empty token, on a socket whose
    send works, completes normally: the socket is registered with the
    role and the token of the frame, the token is in the participant set
    (whose size grows by one exactly when the token is new), the socket
    is sent the init frame and then, with every other live connection,
    the new participant count. *)
Theorem X_join_with_token :
  ∀ (ok : WebSocket → bool) (now : Z) (ws : WebSocket) (r t : string)
    (st : DO),
    t ≠ EmptyString → ok ws = true →
    let run := handleWebSocketMessage ok now ws (MJoin r (Some t)) st in
    let s' := JSMap.set ws (mkSession r t) (sessions st) in
    let n := size (participants (final run)) in
    completion run = Normal tt
    ∧ JSMap.get ws (sessions (final run)) = Some (mkSession r t)
    ∧ participants (final run) = {[t]} ∪ participants st
    ∧ n = (if decide (t ∈ participants st) then size (participants st)
           else S (size (participants st)))
    ∧ sent run
      = (ws, OInit (currentSlide st) (reactions st) n)
        :: to_all (live ok s') (OParticipants n)
    ∧ ((ws, OParticipants n) ∈ sent run).
Proof.
  intros ok now ws r t st Ht Hok. cbn zeta.
  rewrite join_run. cbn zeta.
  unfold join_token, join_participants. cbn [truthy default].
  destruct (String.eqb_spec t EmptyString) as [?|_]; [done|].
  cbn [negb]. rewrite Hok. cbn [completion final sent sessions participants].
  split_and!; try done.
  - rewrite get_live, Hok, get_set. by rewrite decide_True.
  - case_decide as Hin.
    + f_equal. apply subseteq_union_1_L. by apply singleton_subseteq_l.
    + rewrite size_union by (by apply disjoint_singleton_l).
      by rewrite size_singleton.
  - right. apply elem_to_all. split; [done|]. apply keys_get.
    rewrite get_live, Hok, get_set. rewrite decide_True by done. by eexists.
Qed.

Lemma X_join_with_token_witness :
  let run := handleWebSocketMessage all_up 30 2%nat
               (MJoin "audience" (Some "tokenB")) joined in
  let s' := JSMap.set 2%nat (mkSession "audience" "tokenB") (sessions joined) in
  let n := size (participants (final run)) in
  completion run = Normal tt
  ∧ JSMap.get 2%nat (sessions (final run)) = Some (mkSession "audience" "tokenB")
  ∧ participants (final run) = {["tokenB"]} ∪ participants joined
  ∧ n = (if decide ("tokenB" ∈ participants joined)
         then size (participants joined) else S (size (participants joined)))
  ∧ sent run
    = (2%nat, OInit (currentSlide joined) (reactions joined) n)
      :: to_all (live all_up s') (OParticipants n)
  ∧ ((2%nat, OParticipants n) ∈ sent run).
Proof.
  apply (X_join_with_token all_up 30 2%nat "audience" "tokenB" joined).
  - discriminate.
  - reflexivity.
Defined.

(** X9. When the init frame cannot be sent, the handler of the join
    frame throws, yet the socket stays registered and its token stays in
    the participant set; no frame is sent, so the other connections are
    not told the new participant count, and no connection is pruned. The
    listener swallows the error. *)
Theorem X_join_on_broken_socket :
  ∀ (ok : WebSocket → bool) (now : Z) (ws : WebSocket) (r : string)
    (tok : option string) (st : DO),
    ok ws = false →
    let run := handleWebSocketMessage ok now ws (MJoin r tok) st in
    completion run = Throw (SocketClosed ws)
    ∧ sent run = []
    ∧ sessions (final run)
      = JSMap.set ws (mkSession r (join_token now tok)) (sessions st)
    ∧ JSMap.get ws (sessions (final run))
      = Some (mkSession r (join_token now tok))
    ∧ participants (final run) = join_participants tok (participants st)
    ∧ completion (onMessage ok now ws (MJoin r tok) st) = Normal tt
    ∧ final (onMessage ok now ws (MJoin r tok) st) = final run.
Proof.
  intros ok now ws r tok st Hok. cbn zeta.
  rewrite onMessage_run, join_run. cbn zeta. rewrite Hok. cbn.
  split_and!; try done.
  rewrite get_set. by rewrite decide_True.
Qed.

Lemma X_join_on_broken_socket_witness :
  let run := handleWebSocketMessage one_down 30 1%nat
               (MJoin "audience" (Some "tokenZ")) room in
  completion run = Throw (SocketClosed 1%nat)
  ∧ sent run = []
  ∧ sessions (final run)
    = JSMap.set 1%nat (mkSession "audience" (join_token 30 (Some "tokenZ")))
        (sessions room)
  ∧ JSMap.get 1%nat (sessions (final run))
    = Some (mkSession "audience" (join_token 30 (Some "tokenZ")))
  ∧ participants (final run)
    = join_participants (Some "tokenZ") (participants room)
  ∧ completion (onMessage one_down 30 1%nat
                  (MJoin "audience" (Some "tokenZ")) room) = Normal tt
  ∧ final (onMessage one_down 30 1%nat (MJoin "audience" (Some "tokenZ")) room)
    = final run.
Proof.
  apply (X_join_on_broken_socket one_down 30 1%nat "audience" (Some "tokenZ")
           room).
  reflexivity.
Defined.

Lemma keys_set_registered {V} (s : list (WebSocket * V)) ws v :
  ws ∈ JSMap.keys s → JSMap.keys (JSMap.set ws v s) = JSMap.keys s.
Proof. intros Hin. rewrite keys_set. by rewrite decide_True. Qed.

Lemma keys_live_set ok (s : list (WebSocket * Session)) ws v :
  ws ∈ JSMap.keys s →
  JSMap.keys (live ok (JSMap.set ws v s)) = JSMap.keys (live ok s).
Proof.
  unfold JSMap.keys, live.
  induction s as [|[k x] s IH]; cbn [JSMap.set]; intros Hin.
  - by apply elem_of_nil in Hin.
  - destruct (decide (ws = k)) as [->|Hne].
    + rewrite !filter_cons. cbn [fst]. by case_decide.
    + rewrite fmap_cons in Hin. apply elem_of_cons in Hin as [?|Hin]; [done|].
      rewrite !filter_cons. cbn [fst].
      case_decide; rewrite ?fmap_cons; by rewrite IH.
Qed.

(** X10. A socket that is already registered and joins again keeps its
    place in the registry: no entry is added, its role and token are
    replaced by those of the new frame, and every token that was in the
    participant set, its previous one included, is still there. *)
Theorem X_rejoin_replaces_registration :
  ∀ (ok : WebSocket → bool) (now : Z) (ws : WebSocket) (r : string)
    (tok : option string) (old : Session) (st : DO),
    JSMap.get ws (sessions st) = Some old → ok ws = true →
    let st' := final (handleWebSocketMessage ok now ws (MJoin r tok) st) in
    JSMap.keys (sessions st') = JSMap.keys (live ok (sessions st))
    ∧ JSMap.get ws (sessions st') = Some (mkSession r (join_token now tok))
    ∧ participants st ⊆ participants st'.
Proof.
  intros ok now ws r tok old st Hget Hok. cbn zeta.
  rewrite join_run. cbn zeta. rewrite Hok.
  cbn [final sessions participants]. split_and!.
  - apply keys_live_set. apply keys_get. by eexists.
  - rewrite get_live, Hok, get_set. by rewrite decide_True.
  - unfold join_participants. destruct (truthy tok); [|done].
    apply union_subseteq_r.
Qed.

Lemma X_rejoin_replaces_registration_witness :
  let st' := final (handleWebSocketMessage all_up 30 1%nat
                      (MJoin "presenter" (Some "tokenB")) room) in
  JSMap.keys (sessions st') = JSMap.keys (live all_up (sessions room))
  ∧ JSMap.get 1%nat (sessions st')
    = Some (mkSession "presenter" (join_token 30 (Some "tokenB")))
  ∧ participants room ⊆ participants st'.
Proof.
  apply (X_rejoin_replaces_registration all_up 30 1%nat "presenter"
           (Some "tokenB") (mkSession "audience" "tokenA") room).
  - vm_compute. reflexivity.
  - reflexivity.
Defined.

(** ** Closing and dropped connections *)

Lemma delete_unregistered {V} (s : list (WebSocket * V)) ws :
  JSMap.get ws s = None → JSMap.delete ws s = s.
Proof.
  intros Hget. apply get_None_keys in Hget. unfold JSMap.delete.
  apply filter_all. intros e He Heq. apply Hget.
  unfold JSMap.keys. apply list_elem_of_fmap. by exists e.
Qed.

Lemma live_idemp ok (s : list (WebSocket * Session)) :
  live ok (live ok s) = live ok s.
Proof.
  unfold live. apply filter_all. intros e He.
  by apply list_elem_of_filter in He as [? _].
Qed.

Lemma delete_live ok (s : list (WebSocket * Session)) ws :
  JSMap.delete ws (live ok s) = live ok (JSMap.delete ws s).
Proof.
  unfold JSMap.delete, live. rewrite !list_filter_filter.
  apply list_filter_iff. intros e. tauto.
Qed.

Lemma delete_idemp {V} (s : list (WebSocket * V)) ws :
  JSMap.delete ws (JSMap.delete ws s) = JSMap.delete ws s.
Proof.
  unfold JSMap.delete. apply filter_all. intros e He.
  by apply list_elem_of_filter in He as [? _].
Qed.

(** X11. The close event of a socket that is not registered leaves the
    participant set, the cursor and the tally as they were and removes
    no working connection, but it still broadcasts the participant
    count. *)
Theorem X_close_unregistered :
  ∀ (ok : WebSocket → bool) (ws : WebSocket) (st : DO),
    JSMap.get ws (sessions st) = None →
    let run := onClose ok ws st in
    completion run = Normal tt
    ∧ participants (final run) = participants st
    ∧ sessions (final run) = live ok (sessions st)
    ∧ currentSlide (final run) = currentSlide st
    ∧ reactions (final run) = reactions st
    ∧ sent run
      = to_all (live ok (sessions st))
          (OParticipants (size (participants st))).
Proof.
  intros ok ws st Hget. cbn zeta. rewrite onClose_run. cbn zeta.
  unfold close_participants. rewrite Hget, delete_unregistered by done.
  done.
Qed.

Lemma X_close_unregistered_witness :
  let run := onClose all_up 9%nat room in
  completion run = Normal tt
  ∧ participants (final run) = participants room
  ∧ sessions (final run) = live all_up (sessions room)
  ∧ currentSlide (final run) = currentSlide room
  ∧ reactions (final run) = reactions room
  ∧ sent run
    = to_all (live all_up (sessions room))
        (OParticipants (size (participants room))).
Proof.
  apply (X_close_unregistered all_up 9%nat room). vm_compute. reflexivity.
Defined.

(** X12. Handling the close event of the same socket a second time
    changes nothing: the state after two close events is the state after
    one. *)
Theorem X_close_twice :
  ∀ (ok : WebSocket → bool) (ws : WebSocket) (st : DO),
    final (onClose ok ws (final (onClose ok ws st)))
    = final (onClose ok ws st).
Proof.
  intros ok ws st. rewrite !onClose_run. cbn zeta.
  cbn [final sessions reactions currentSlide sessionData participants storage].
  assert (JSMap.get ws (live ok (JSMap.delete ws (sessions st))) = None) as Hg.
  { rewrite get_live, get_delete. rewrite decide_True by done.
    by destruct (ok ws). }
  unfold close_participants at 1 2.
  cbn [sessions participants]. rewrite Hg.
  by rewrite delete_live, delete_idemp, live_idemp.
Qed.

(** X13. A connection that a broadcast drops because its send failed
    keeps its token in the participant set, and the close event of its
    socket, which finds it no longer registered, does not remove the
    token either. *)
Theorem X_dropped_connection_stays_participant :
  ∀ (ok ok' : WebSocket → bool) (message : OutMsg) (ws : WebSocket)
    (sess : Session) (st : DO),
    JSMap.get ws (sessions st) = Some sess →
    ok ws = false →
    let st1 := final (broadcast ok message st) in
    let st2 := final (onClose ok' ws st1) in
    JSMap.get ws (sessions st1) = None
    ∧ participants st1 = participants st
    ∧ participants st2 = participants st.
Proof.
  intros ok ok' message ws sess st Hget Hok. cbn zeta.
  rewrite onClose_run, broadcast_run. cbn zeta.
  cbn [final with_sessions sessions participants].
  assert (JSMap.get ws (live ok (sessions st)) = None) as Hg
    by (by rewrite get_live, Hok).
  split_and!; try done.
  unfold close_participants. cbn [with_sessions sessions participants].
  by rewrite Hg.
Qed.

Lemma X_dropped_connection_stays_participant_witness :
  let st1 := final (broadcast one_down OPong room) in
  let st2 := final (onClose all_up 1%nat st1) in
  JSMap.get 1%nat (sessions st1) = None
  ∧ participants st1 = participants room
  ∧ participants st2 = participants room.
Proof.
  apply (X_dropped_connection_stays_participant one_down all_up OPong 1%nat
           (mkSession "audience" "tokenA") room).
  - vm_compute. reflexivity.
  - reflexivity.
Defined.

Example dropped_connection_example :
  let st1 := final (broadcast one_down OPong room) in
  let st2 := final (onClose all_up 1%nat st1) in
  JSMap.keys (sessions st2) = [2%nat]
  ∧ elements (participants st2) = elements (participants room)
  ∧ size (participants st2) = 2%nat.
Proof. vm_compute. repeat split; reflexivity. Qed.

(** ** Invariants of the registry and the participant set *)

Lemma handle_no_empty_participant ok ev st :
  EmptyString ∉ participants st →
  EmptyString ∉ participants (final (handle ok ev st)).
Proof.
  intros Hn. rewrite handle_participants.
  destruct ev as [now ws [r tok| | | | | |]|ws| |]; try done.
  - unfold join_participants, truthy.
    destruct tok as [t|]; [|done]. cbn.
    destruct (String.eqb_spec t EmptyString) as [->|Hne]; [done|]. cbn.
    rewrite elem_of_union, elem_of_singleton. intros [?|?]; by auto.
  - unfold close_participants.
    destruct (JSMap.get ws (sessions st)) as [sess|]; [|done].
    destruct (negb (String.eqb (sessionToken sess) EmptyString)); [|done].
    rewrite elem_of_difference. tauto.
Qed.

(** X14. In every reachable state each socket is registered at most
    once, every registered token is a non-empty string, and the empty
    string is not a participant. *)
Theorem X_registry_invariant :
  ∀ st : DO,
    reachable st →
    NoDup (JSMap.keys (sessions st))
    ∧ (∀ ws sess, JSMap.get ws (sessions st) = Some sess →
                  sessionToken sess ≠ EmptyString)
    ∧ EmptyString ∉ participants st.
Proof.
  intros st Hr. split_and!.
  - by apply reachable_wf.
  - intros ws sess. by apply reachable_tokens_nonempty.
  - induction Hr as [stored|ok ev st _ IH]; [apply not_elem_of_empty|].
    by apply handle_no_empty_participant.
Qed.

Lemma X_registry_invariant_witness :
  NoDup (JSMap.keys (sessions two_tabs))
  ∧ (∀ ws sess, JSMap.get ws (sessions two_tabs) = Some sess →
                sessionToken sess ≠ EmptyString)
  ∧ EmptyString ∉ participants two_tabs.
Proof. exact (X_registry_invariant two_tabs reachable_two_tabs). Defined.

(** ** Session data *)

(** X15. An update frame merges its fields into the session data: a
    field of the frame takes the frame's value, every other field keeps
    its value; the merged data is checkpointed and the frame's fields are
    relayed to every live connection. The tally, the cursor and the
    participant set are untouched, two updates in a row amount to one
    update with the merged fields (the later frame winning), and
    repeating an update changes nothing more. *)
Theorem X_update_merges :
  ∀ (ok : WebSocket → bool) (d1 d2 : SessionData) (st : DO),
    let run := handleUpdate ok d1 st in
    let st1 := final run in
    completion run = Normal tt
    ∧ (∀ k, sessionData st1 !! k
            = match d1 !! k with
              | Some v => Some v
              | None => sessionData st !! k
              end)
    ∧ stored_sessionData (storage st1) = Some (sessionData st1)
    ∧ reactions st1 = reactions st
    ∧ currentSlide st1 = currentSlide st
    ∧ participants st1 = participants st
    ∧ sent run = to_all (live ok (sessions st)) (OUpdate d1)
    ∧ sessionData (final (handleUpdate ok d2 st1))
      = sessionData (final (handleUpdate ok (d2 ∪ d1) st))
    ∧ sessionData (final (handleUpdate ok d1 st1)) = sessionData st1.
Proof.
  intros ok d1 d2 st. cbn zeta. rewrite !handleUpdate_run.
  cbn [completion final sent sessionData storage stored_sessionData
       reactions currentSlide participants].
  split_and!; try done.
  - intros k. rewrite lookup_union.
    destruct (d1 !! k), (sessionData st !! k); done.
  - by rewrite (assoc_L (∪)).
  - by rewrite (assoc_L (∪)), (idemp_L (∪)).
Qed.

(** ** Analytics *)

Lemma totalReactions_insert (r : gmap string Z) k :
  totalReactions (<[k := or_zero (r !! k) + 1]> r) = totalReactions r + 1.
Proof.
  unfold totalReactions.
  assert (∀ (j1 j2 : string) (z1 z2 y : Z), y + z2 + z1 = y + z1 + z2) as Hc
    by (intros; lia).
  destruct (r !! k) as [n|] eqn:Hk.
  - rewrite <- insert_delete_eq.
    rewrite map_fold_insert_L; [|by intros; apply Hc|apply lookup_delete_eq].
    rewrite <- (insert_delete_id r k n) at 2 by done.
    rewrite (map_fold_insert_L _ _ k n);
      [|by intros; apply Hc|apply lookup_delete_eq].
    rewrite or_zero_default. cbn. lia.
  - rewrite map_fold_insert_L; [|by intros; apply Hc|done]. cbn. lia.
Qed.

Lemma handle_total ok ev st :
  totalReactions (reactions (final (handle ok ev st)))
  = totalReactions (reactions st) + (if is_reaction_frame ev then 1 else 0).
Proof.
  rewrite handle_reactions.
  destruct ev as [now ws [| e s | | | | |]| | |]; cbn [is_reaction_frame];
    try lia.
  apply totalReactions_insert.
Qed.

Lemma run_events_total evs st :
  totalReactions (reactions (run_events evs st))
  = totalReactions (reactions st) + Z.of_nat (reaction_frames evs).
Proof.
  revert st. induction evs as [|[ok ev] evs IH]; intros st.
  - cbn. lia.
  - cbn [run_events]. rewrite IH, handle_total.
    unfold reaction_frames. rewrite filter_cons. cbn [snd].
    destruct (is_reaction_frame ev).
    + rewrite decide_True by done. cbn [length]. lia.
    + rewrite decide_False by done. lia.
Qed.

(** X16. The analytics endpoint reads the state without changing it and
    without sending a frame. After any trace, its total of reactions is
    the total before the trace plus the number of reaction frames of the
    trace; on a fresh object it is that number. *)
Theorem X_analytics_total :
  ∀ (evs : list ((WebSocket → bool) * Event)) (st : DO),
    let st' := run_events evs st in
    getAnalytics st'
    = mkRun (Normal (mkResponse 200
               (PAnalytics
                  (totalReactions (reactions st) + Z.of_nat (reaction_frames evs))
                  (size (participants st')) (currentSlide st')
                  (sessionData st'))))
            st' []
    ∧ totalReactions (reactions (run_events evs (construct emptyStorage)))
      = Z.of_nat (reaction_frames evs).
Proof.
  intros evs st. cbn zeta. split.
  - unfold getAnalytics. rewrite !bind_read. unfold ret.
    by rewrite run_events_total.
  - rewrite run_events_total. cbn. unfold totalReactions.
    by rewrite map_fold_empty.
Qed.

Example analytics_example :
  let evs :=
    [ (all_up, EMessage 11 1%nat (MReaction "thumb" 1));
      (all_up, EMessage 12 1%nat (MReaction "fire" 1));
      (all_up, EMessage 13 2%nat (MSlideChange 2));
      (all_up, EMessage 14 1%nat (MReaction "thumb" 1)) ] in
  payload <$> (match completion (getAnalytics (run_events evs joined)) with
               | Normal r => Some r
               | Throw _ => None
               end)
  = Some (PAnalytics 3 1 2 deck).
Proof. vm_compute. reflexivity. Qed.

(** ** The snapshot of the tally *)

Lemma split_dash_no_dash a : no_dash a → split_dash a = [a].
Proof.
  induction a as [|c a IH]; [done|]. intros [Hc Ha].
  cbn [split_dash].
  destruct (Ascii.eqb_spec c "-") as [?|_]; [done|]. by rewrite IH.
Qed.

Lemma split_dash_at a b :
  no_dash a → split_dash (a ++ String "-" b) = a :: split_dash b.
Proof.
  induction a as [|c a IH].
  - intros _. reflexivity.
  - intros [Hc Ha].
    change (String c a ++ String "-" b) with (String c (a ++ String "-" b)).
    cbn [split_dash].
    destruct (Ascii.eqb_spec c "-") as [?|_]; [done|]. by rewrite IH.
Qed.

Lemma dec_digit_cases a f :
  dec_digit a = Some f →
  (a = "0"%char ∧ f = Decimal.D0) ∨ (a = "1"%char ∧ f = Decimal.D1)
  ∨ (a = "2"%char ∧ f = Decimal.D2) ∨ (a = "3"%char ∧ f = Decimal.D3)
  ∨ (a = "4"%char ∧ f = Decimal.D4) ∨ (a = "5"%char ∧ f = Decimal.D5)
  ∨ (a = "6"%char ∧ f = Decimal.D6) ∨ (a = "7"%char ∧ f = Decimal.D7)
  ∨ (a = "8"%char ∧ f = Decimal.D8) ∨ (a = "9"%char ∧ f = Decimal.D9).
Proof.
  unfold dec_digit. cbv zeta. intros Hd.
  assert (∀ n, N_of_ascii a = n → a = ascii_of_N n) as Ha
    by (intros n <-; by rewrite ascii_N_embedding).
  destruct (N.eqb_spec (N_of_ascii a) 48) as [He|_];
    [apply Ha in He; cbn in He; injection Hd as <-; tauto|].
  destruct (N.eqb_spec (N_of_ascii a) 49) as [He|_];
    [apply Ha in He; cbn in He; injection Hd as <-; tauto|].
  destruct (N.eqb_spec (N_of_ascii a) 50) as [He|_];
    [apply Ha in He; cbn in He; injection Hd as <-; tauto|].
  destruct (N.eqb_spec (N_of_ascii a) 51) as [He|_];
    [apply Ha in He; cbn in He; injection Hd as <-; tauto|].
  destruct (N.eqb_spec (N_of_ascii a) 52) as [He|_];
    [apply Ha in He; cbn in He; injection Hd as <-; tauto|].
  destruct (N.eqb_spec (N_of_ascii a) 53) as [He|_];
    [apply Ha in He; cbn in He; injection Hd as <-; tauto|].
  destruct (N.eqb_spec (N_of_ascii a) 54) as [He|_];
    [apply Ha in He; cbn in He; injection Hd as <-; tauto|].
  destruct (N.eqb_spec (N_of_ascii a) 55) as [He|_];
    [apply Ha in He; cbn in He; injection Hd as <-; tauto|].
  destruct (N.eqb_spec (N_of_ascii a) 56) as [He|_];
    [apply Ha in He; cbn in He; injection Hd as <-; tauto|].
  destruct (N.eqb_spec (N_of_ascii a) 57) as [He|_];
    [apply Ha in He; cbn in He; injection Hd as <-; tauto|].
  done.
Qed.

(** Strings of decimal digits. *)
Lemma dec_prefix_uint d : dec_prefix (NilEmpty.string_of_uint d) = d.
Proof. induction d; cbn; by rewrite ?IHd. Qed.

Lemma string_of_uint_head d :
  d ≠ Decimal.Nil →
  ∃ a f r, NilEmpty.string_of_uint d = String a r ∧ dec_digit a = Some f.
Proof. destruct d; [done|..]; intros _; cbn; by eauto. Qed.

Lemma string_of_uint_second d a b r :
  NilEmpty.string_of_uint d = String a (String b r) →
  ∃ f, dec_digit b = Some f.
Proof.
  destruct d as [|d|d|d|d|d|d|d|d|d|d]; cbn; [done|..];
    intros [= _ Hd]; destruct d; cbn in Hd; try done;
    injection Hd as <- _; by eauto.
Qed.

Lemma trimStart_digit a r f :
  dec_digit a = Some f → trimStart (String a r) = String a r.
Proof.
  intros Hd.
  destruct (dec_digit_cases a f Hd)
    as [[-> _]|[[-> _]|[[-> _]|[[-> _]|[[-> _]|[[-> _]|[[-> _]|[[-> _]|
        [[-> _]|[-> _]]]]]]]]]];
    cbn; destruct r as [|b [|c r]]; reflexivity.
Qed.

Lemma parseInt_uint d :
  d ≠ Decimal.Nil → parseInt (NilEmpty.string_of_uint d) = Some (Z.of_uint d).
Proof.
  intros Hd. destruct (string_of_uint_head d Hd) as (a & f & r & Hs & Ha).
  unfold parseInt. rewrite Hs, (trimStart_digit a r f Ha).
  assert (Ascii.eqb a "-" = false ∧ Ascii.eqb a "+" = false) as [-> ->].
  { destruct (dec_digit_cases a f Ha)
      as [[-> _]|[[-> _]|[[-> _]|[[-> _]|[[-> _]|[[-> _]|[[-> _]|[[-> _]|
          [[-> _]|[-> _]]]]]]]]]]; done. }
  assert (dec_prefix (String a r) = d) as Hp
    by (by rewrite <- Hs, dec_prefix_uint).
  destruct r as [|b r].
  - rewrite Hp. destruct d; try done; by rewrite Z.mul_1_l.
  - destruct (string_of_uint_second d a b r Hs) as [g Hb].
    assert ((Ascii.eqb b "x" || Ascii.eqb b "X")%bool = false) as Hx.
    { destruct (dec_digit_cases b g Hb)
        as [[-> _]|[[-> _]|[[-> _]|[[-> _]|[[-> _]|[[-> _]|[[-> _]|[[-> _]|
            [[-> _]|[-> _]]]]]]]]]]; done. }
    rewrite Hx, andb_false_r, Hp. destruct d; try done; by rewrite Z.mul_1_l.
Qed.

Lemma Number_toString_nonneg n :
  (0 ≤ n)%Z →
  ∃ d, d ≠ Decimal.Nil ∧ Number_toString n = NilEmpty.string_of_uint d
       ∧ Z.of_uint d = n.
Proof.
  intros Hn. unfold Number_toString.
  pose proof (DecimalZ.of_to n) as Hof.
  destruct n as [|p|p]; [| |lia]; cbn in *.
  - exists (Decimal.D0 Decimal.Nil). by split_and!.
  - exists (Pos.to_uint p). split_and!; [apply Unsigned.to_uint_nonnil|done..].
Qed.


Lemma number_key_parseInt n :
  (0 ≤ n)%Z → number_key (parseInt (Number_toString n)) = Number_toString n.
Proof.
  intros Hn. destruct (Number_toString_nonneg n Hn) as (d & Hd & Hs & Hv).
  by rewrite Hs, parseInt_uint, Hv.
Qed.

Lemma no_dash_Number_toString n : (0 ≤ n)%Z → no_dash (Number_toString n).
Proof.
  intros Hn. destruct (Number_toString_nonneg n Hn) as (d & _ & -> & _).
  apply no_dash_uint.
Qed.

(** The two property keys of a tally key whose slide is not negative:
    the symbol is cut at its first separator. *)
Lemma key_parts_plain slide emoji :
  (0 ≤ slide)%Z → no_dash emoji →
  key_parts (reactionKey slide emoji) = (Number_toString slide, emoji).
Proof.
  intros Hs He. unfold key_parts, reactionKey.
  change ("-" ++ emoji) with (String "-" emoji).
  rewrite split_dash_at by (by apply no_dash_Number_toString).
  rewrite split_dash_no_dash by done. cbn.
  by rewrite number_key_parseInt.
Qed.

Lemma key_parts_cut slide a b :
  (0 ≤ slide)%Z → no_dash a →
  key_parts (reactionKey slide (a ++ String "-" b)) = (Number_toString slide, a).
Proof.
  intros Hs Ha. unfold key_parts, reactionKey.
  change ("-" ++ (a ++ String "-" b)) with (String "-" (a ++ String "-" b)).
  rewrite split_dash_at by (by apply no_dash_Number_toString).
  rewrite split_dash_at by done. cbn.
  by rewrite number_key_parseInt.
Qed.


Lemma cell_step acc k v sk ek :
  cell (slideReactions_step acc (k, v)) sk ek
  = if decide (sk = (key_parts k).1) then
      if String.eqb (key_parts k).2 "__proto__" then cell acc sk ek
      else if decide (ek = (key_parts k).2) then Some v
      else cell acc sk ek
    else cell acc sk ek.
Proof.
  unfold slideReactions_step, cell. cbn [fst snd].
  destruct (key_parts k) as [sk' ek']. cbn [fst snd].
  destruct (decide (sk = sk')) as [->|Hne].
  - rewrite lookup_insert_eq. cbn.
    destruct (String.eqb ek' "__proto__").
    + by destruct (acc !! sk').
    + destruct (decide (ek = ek')) as [->|Hne'].
      * by rewrite lookup_insert_eq.
      * rewrite lookup_insert_ne by done. by destruct (acc !! sk').
  - by rewrite lookup_insert_ne.
Qed.

Lemma plain_symbol_eqb emoji :
  plain_symbol emoji → String.eqb emoji "__proto__" = false.
Proof. intros [_ Hne]. by apply String.eqb_neq. Qed.

Lemma key_parts_plain_key k :
  plain_key k →
  ∃ slide emoji, k = reactionKey slide emoji ∧ plain_symbol emoji
                 ∧ key_parts k = (Number_toString slide, emoji).
Proof.
  intros (slide & emoji & -> & Hs & He). exists slide, emoji.
  split_and!; [done|done|]. apply key_parts_plain; [apply Hs|apply He].
Qed.

(** The cell of a plain pair after the loop: the count of its key if the
    key is among the entries, the cell before the loop otherwise. *)
Lemma cell_foldl_plain entries acc slide emoji :
  NoDup entries.*1 → Forall plain_key entries.*1 →
  (0 ≤ slide)%Z → plain_symbol emoji →
  cell (foldl slideReactions_step acc entries) (Number_toString slide) emoji
  = match list_find (λ e, e.1 = reactionKey slide emoji) entries with
    | Some (_, e) => Some e.2
    | None => cell acc (Number_toString slide) emoji
    end.
Proof.
  intros Hnd Hall Hs He. revert acc.
  induction entries as [|[k v] entries IH]; intros acc; [done|].
  cbn [fmap list_fmap] in Hnd, Hall.
  apply NoDup_cons in Hnd as [Hk Hnd]. apply Forall_cons in Hall as [Hpk Hall].
  cbn [foldl]. rewrite IH by done. cbn [list_find fst].
  destruct (key_parts_plain_key k Hpk) as (s' & e' & -> & He' & Hparts).
  destruct (decide (reactionKey s' e' = reactionKey slide emoji)) as [Heq|Hne].
  - apply reactionKey_inj in Heq as [-> ->].
    destruct (list_find _ entries) as [[i [k' v']]|] eqn:Hfind;
      cbn [option_fmap option_map fmap prod_map fst snd].
    + apply list_find_Some in Hfind as (Hi & Hk' & _). cbn in Hk'. subst k'.
      exfalso. apply Hk. apply list_elem_of_fmap. exists (reactionKey slide emoji, v').
      split; [done|]. by eapply list_elem_of_lookup_2.
    + rewrite cell_step, Hparts. cbn [fst snd].
      rewrite decide_True by done. rewrite plain_symbol_eqb by done.
      by rewrite decide_True.
  - destruct (list_find _ entries) as [[i [k' v']]|];
      cbn [option_fmap option_map fmap prod_map fst snd]; [done|].
    rewrite cell_step, Hparts. cbn [fst snd].
    destruct (decide (Number_toString slide = Number_toString s')) as [Hn|]; [|done].
    apply Number_toString_inj in Hn as ->.
    rewrite plain_symbol_eqb by done.
    destruct (decide (emoji = e')) as [->|]; [done|done].
Qed.

Lemma list_find_entries (r : gmap string Z) entries key :
  entries_of entries r →
  (match list_find (λ e, e.1 = key) entries with
   | Some (_, e) => Some e.2
   | None => None
   end) = r !! key.
Proof.
  unfold entries_of. intros Hperm.
  destruct (list_find _ entries) as [[i [k v]]|] eqn:Hfind; cbn.
  - apply list_find_Some in Hfind as (Hi & Hk & _). cbn in Hk. subst k.
    symmetry. apply elem_of_map_to_list. rewrite <- Hperm.
    by eapply list_elem_of_lookup_2.
  - destruct (r !! key) as [v|] eqn:Hr; [|done]. exfalso.
    apply elem_of_map_to_list in Hr. rewrite <- Hperm in Hr.
    eapply list_find_None in Hfind. rewrite Forall_forall in Hfind.
    by apply (Hfind _ Hr).
Qed.

Lemma entries_NoDup (r : gmap string Z) entries :
  entries_of entries r → NoDup entries.*1.
Proof.
  unfold entries_of. intros ->. apply NoDup_fst_map_to_list.
Qed.

Lemma entries_plain (r : gmap string Z) entries :
  entries_of entries r →
  (∀ k, is_Some (r !! k) → plain_key k) → Forall plain_key entries.*1.
Proof.
  unfold entries_of. intros Hperm Hall. rewrite Forall_forall.
  intros k Hk. apply list_elem_of_fmap in Hk as [[k' v] [-> Hin]].
  apply Hall. exists v. apply elem_of_map_to_list. by rewrite <- Hperm.
Qed.

(** X17. When every key of the tally has a safe slide (an integer from
    0 up to, not including, 2^53) and a plain symbol (no [-], not
    [__proto__]), the snapshot of [/reactions] shows, whatever the
    iteration order, for every such pair the count of the tally and
    nothing for a pair that is not tallied; the endpoint changes nothing
    and sends nothing. *)
Theorem X_snapshot_matches_tally :
  ∀ (entries : list (string * Z)) (st : DO),
    entries_of entries (reactions st) →
    (∀ k, is_Some (reactions st !! k) → plain_key k) →
    getReactions entries st
    = mkRun (Normal (mkResponse 200
               (PReactions (currentSlide st) (slideReactions entries)
                  (size (participants st)))))
            st []
    ∧ ∀ slide emoji,
        safe_slide slide → plain_symbol emoji →
        cell (slideReactions entries) (Number_toString slide) emoji
        = reactions st !! reactionKey slide emoji.
Proof.
  intros entries st Hperm Hall. split.
  - unfold getReactions. by rewrite !bind_read.
  - intros slide emoji Hs He. unfold slideReactions.
    rewrite cell_foldl_plain;
      [|by eapply entries_NoDup|by eapply entries_plain|apply Hs|done].
    rewrite <- (list_find_entries (reactions st) entries) by done.
    by destruct (list_find _ entries) as [[? [? ?]]|].
Qed.

(** Plain reaction frames keep the keys of the tally plain. *)
Lemma plain_frames_keys evs st :
  plain_frames evs →
  (∀ k, is_Some (reactions st !! k) → plain_key k) →
  ∀ k, is_Some (reactions (run_events evs st) !! k) → plain_key k.
Proof.
  unfold plain_frames. revert st.
  induction evs as [|[ok ev] evs IH]; intros st Hpl Hall; [done|].
  apply Forall_cons in Hpl as [Hev Hpl]. cbn [run_events].
  apply IH; [done|]. intros k. rewrite handle_reactions.
  destruct ev as [now ws [| e s | | | | |]| | |]; try apply Hall.
  cbn [snd] in Hev. destruct Hev as [Hs He].
  destruct (decide (reactionKey s e = k)) as [<-|Hne].
  - intros _. by exists s, e.
  - rewrite lookup_insert_ne by done. apply Hall.
Qed.

Lemma X_snapshot_matches_tally_witness :
  let st := run_events
              [ (all_up, EMessage 20 1%nat (MReaction "thumb" 1));
                (all_up, EMessage 21 1%nat (MReaction "fire" 2));
                (all_up, EMessage 22 1%nat (MReaction "thumb" 1)) ]
              (construct emptyStorage) in
  let entries := map_to_list (reactions st) in
  getReactions entries st
  = mkRun (Normal (mkResponse 200
             (PReactions (currentSlide st) (slideReactions entries)
                (size (participants st)))))
          st []
  ∧ ∀ slide emoji,
      safe_slide slide → plain_symbol emoji →
      cell (slideReactions entries) (Number_toString slide) emoji
      = reactions st !! reactionKey slide emoji.
Proof.
  apply (X_snapshot_matches_tally
           (map_to_list
              (reactions
                 (run_events
                    [ (all_up, EMessage 20 1%nat (MReaction "thumb" 1));
                      (all_up, EMessage 21 1%nat (MReaction "fire" 2));
                      (all_up, EMessage 22 1%nat (MReaction "thumb" 1)) ]
                    (construct emptyStorage))))).
  - unfold entries_of. reflexivity.
  - apply plain_frames_keys.
    + unfold safe_slide. repeat constructor; cbn; try lia; discriminate.
    + intros k [v Hv]. cbn in Hv. by rewrite lookup_empty in Hv.
Defined.

Example snapshot_example :
  let st := run_events
              [ (all_up, EMessage 20 1%nat (MReaction "thumb" 1));
                (all_up, EMessage 21 1%nat (MReaction "fire" 2));
                (all_up, EMessage 22 1%nat (MReaction "thumb" 1)) ]
              (construct emptyStorage) in
  let m := slideReactions (map_to_list (reactions st)) in
  cell m "1" "thumb" = Some 2 ∧ cell m "2" "fire" = Some 1
  ∧ cell m "1" "fire" = None.
Proof. vm_compute. repeat split; reflexivity. Qed.

(** X18. A symbol that contains [-] is cut at its first [-] in the
    snapshot: for a safe slide (an integer from 0 up to, not including,
    2^53) and a symbol [a-b] whose part [a] before the first [-] is
    not [__proto__], the count of the pair (slide, a-b) is written into
    the cell of (slide, a), where it replaces whatever the entries
    before it put there. *)
Theorem X_snapshot_cuts_symbol :
  ∀ (entries : list (string * Z)) (slide : Z) (a b : string) (n : Z),
    safe_slide slide → plain_symbol a →
    cell (slideReactions
            (entries ++ [(reactionKey slide (a ++ String "-" b), n)]))
         (Number_toString slide) a
    = Some n.
Proof.
  intros entries slide a b n [Hs _] [Ha Hp]. unfold slideReactions.
  rewrite foldl_app. cbn [foldl].
  rewrite cell_step, key_parts_cut by done. cbn [fst snd].
  rewrite decide_True by done.
  rewrite (plain_symbol_eqb a) by done. by rewrite decide_True.
Qed.

Lemma X_snapshot_cuts_symbol_witness :
  cell (slideReactions
          ([("1-ok", 5)] ++ [(reactionKey 1 ("ok" ++ String "-" "hand"), 2)]))
       (Number_toString 1) "ok"
  = Some 2.
Proof.
  apply (X_snapshot_cuts_symbol [("1-ok", 5)] 1 "ok" "hand" 2).
  - unfold safe_slide. lia.
  - split; [cbn; by repeat split|discriminate].
Defined.



(** ** Routing *)

Lemma fetch_not_found ok entries up p jb jn st :
  up ≠ Some "websocket" →
  p ∉ ["/init"; "/notify"; "/reactions"; "/analytics"] →
  fetch ok entries (mkRequest up p jb jn) st
  = mkRun (Normal (mkResponse 404 (PText "Not found"))) st [].
Proof.
  intros Hup Hp. unfold fetch. cbn [upgrade pathname].
  assert (match up with
          | Some v => String.eqb v "websocket"
          | None => false
          end = false) as ->.
  { destruct up as [v|]; [|done]. apply String.eqb_neq. congruence. }
  rewrite !not_elem_of_cons in Hp. destruct Hp as (H1 & H2 & H3 & H4 & _).
  apply String.eqb_neq in H1, H2, H3, H4. by rewrite H1, H2, H3, H4.
Qed.

(** X20. Without a websocket upgrade, [fetch] serves the four endpoints
    at exactly the pathnames [/init], [/notify], [/reactions] and
    [/analytics]: every other pathname is answered 404 [Not found], with
    the state unchanged and no frame sent. That holds for the pathnames
    [/feedback/<id>/notify] and [/feedback/<id>/init] of the URLs that
    the HTTP handlers post to, whatever the id. *)
Theorem X_fetch_exact_paths :
  ∀ (ok : WebSocket → bool) (entries : list (string * Z))
    (up : option string) (jb : option SessionData) (jn : option NotifyData)
    (st : DO),
    up ≠ Some "websocket" →
    (∀ p, p ∉ ["/init"; "/notify"; "/reactions"; "/analytics"] →
          fetch ok entries (mkRequest up p jb jn) st
          = mkRun (Normal (mkResponse 404 (PText "Not found"))) st [])
    ∧ (∀ id,
         fetch ok entries (mkRequest up ("/feedback/" ++ id ++ "/notify") jb jn) st
         = mkRun (Normal (mkResponse 404 (PText "Not found"))) st []
         ∧ fetch ok entries (mkRequest up ("/feedback/" ++ id ++ "/init") jb jn) st
           = mkRun (Normal (mkResponse 404 (PText "Not found"))) st []).
Proof.
  intros ok entries up jb jn st Hup. split.
  - intros p Hp. by apply fetch_not_found.
  - intros id. split; apply fetch_not_found; try done;
      rewrite !not_elem_of_cons; split_and!; try apply not_elem_of_nil;
      cbv [String.append]; discriminate.
Qed.

Lemma X_fetch_exact_paths_witness :
  (∀ p, p ∉ ["/init"; "/notify"; "/reactions"; "/analytics"] →
        fetch all_up [] (mkRequest None p None (Some NClose)) joined
        = mkRun (Normal (mkResponse 404 (PText "Not found"))) joined [])
  ∧ (∀ id,
       fetch all_up []
         (mkRequest None ("/feedback/" ++ id ++ "/notify") None (Some NClose))
         joined
       = mkRun (Normal (mkResponse 404 (PText "Not found"))) joined []
       ∧ fetch all_up []
           (mkRequest None ("/feedback/" ++ id ++ "/init") None (Some NClose))
           joined
         = mkRun (Normal (mkResponse 404 (PText "Not found"))) joined []).
Proof.
  apply (X_fetch_exact_paths all_up [] None None (Some NClose) joined).
  discriminate.
Defined.

Example fetch_example :
  sent (fetch all_up [] (mkRequest None "/notify" None (Some NClose)) joined)
  = [(1%nat, ONotify NClose)]
  ∧ sent (fetch all_up []
            (mkRequest None "/feedback/do1/notify" None (Some NClose)) joined)
    = []
  ∧ status <$> (match completion
                        (fetch all_up []
                           (mkRequest (Some "websocket") "/notify" None None)
                           joined) with
                | Normal r => Some r
                | Throw _ => None
                end) = Some 101.
Proof. vm_compute. repeat split; reflexivity. Qed.

(** ** Tally keys *)

(** X1. The key under which a reaction is tallied determines its pair:
    two pairs of an integer slide and a symbol have the same key only if
    they are the same pair, so the counts of different pairs never share
    an entry. *)
Theorem X_tally_key_determines_pair :
  ∀ (slide slide' : Z) (emoji emoji' : string),
    reactionKey slide emoji = reactionKey slide' emoji'
    ↔ slide = slide' ∧ emoji = emoji'.
Proof.
  intros slide slide' emoji emoji'. split.
  - apply reactionKey_inj.
  - by intros [-> ->].
Qed.
